(** * csv_json_validator: the validator of [main.py], embedded and verified

    [main.py] reads a CSV file, takes one named column and checks every
    value of that column with [is_valid_json], which first normalises the
    text with [ast.literal_eval] followed by [json.dumps]
    ([preprocess_json_string]) and then parses the result with
    [json.loads].

    The three functions of [main.py] are translated line by line.  What
    they call in Python's standard library ([str.strip], slicing,
    [ast.literal_eval], [json.dumps], [json.loads], [csv.DictReader]) is
    modelled next to them, on this domain:

    - a Python [str] is a Rocq [string] whose characters are the code
      points 0..255;
    - a call ends in one of three ways: it returns, it raises a Python
      exception, or it leaves the modelled fragment of the library
      ([Unmodelled]).  The fragment leaves out floating point and complex
      numbers, non-decimal integers, prefixed and triple-quoted strings,
      keywords, comments and line breaks outside strings, and whatever
      differs between CPython versions.  The model never guesses there: a
      [Return] or a [Raise] of the model is what CPython does;
    - the text of an exception raised by the library is the model's own
      wording (CPython's varies with the version and may hold object
      addresses).  Results about messages are about their prefix, which
      [main.py] itself writes. *)

From Stdlib Require Import String Ascii List ZArith Lia Bool Arith.
From Stdlib Require Import DecimalString DecimalFacts DecimalPos DecimalZ.
Import ListNotations.

Set Warnings "-register-all".

Local Open Scope list_scope.
Local Open Scope string_scope.

(* ===================================================================== *)
(** ** Python exceptions and the outcome of a call                         *)
(* ===================================================================== *)

(** The exception classes [main.py] names or can meet.  Of the ancestors of
    a class, those no handler of [main.py] names are left out. *)
Inductive exn_class : Type :=
  | Exception
  | ValueError
  | SyntaxError
  | TypeError
  | KeyError
  | JSONDecodeError
  | OSError
  | FileNotFoundError
  | CsvError.

(** The base class, as CPython declares it:
    [class JSONDecodeError(ValueError)], [FileNotFoundError(OSError)]. *)
Definition base (c : exn_class) : option exn_class :=
  match c with
  | Exception => None
  | JSONDecodeError => Some ValueError
  | FileNotFoundError => Some OSError
  | ValueError | SyntaxError | TypeError | KeyError | OSError | CsvError =>
      Some Exception
  end.

Definition exn_class_eqb (c d : exn_class) : bool :=
  match c, d with
  | Exception, Exception | ValueError, ValueError | SyntaxError, SyntaxError
  | TypeError, TypeError | KeyError, KeyError
  | JSONDecodeError, JSONDecodeError
  | OSError, OSError | FileNotFoundError, FileNotFoundError
  | CsvError, CsvError => true
  | _, _ => false
  end.

(** [issubclass c d]: [d] is [c] or one of its ancestors.  The hierarchy
    above has depth three. *)
Fixpoint issubclass_upto (n : nat) (c d : exn_class) : bool :=
  exn_class_eqb c d ||
  match n with
  | O => false
  | S n' => match base c with
            | Some b => issubclass_upto n' b d
            | None => false
            end
  end.

Definition issubclass : exn_class -> exn_class -> bool := issubclass_upto 3.

(** An exception: its class and [str(e)]. *)
Record exn : Type := mkExn { exn_cls : exn_class; exn_str : string }.

(** [isinstance(e, d)] *)
Definition isinstance (e : exn) (d : exn_class) : bool :=
  issubclass (exn_cls e) d.

Inductive pyresult (A : Type) : Type :=
  | Return (a : A)
  | Raise (e : exn)
  | Unmodelled (why : string).

Arguments Return {A} a.
Arguments Raise {A} e.
Arguments Unmodelled {A} why.

Definition bind {A B : Type} (m : pyresult A) (k : A -> pyresult B)
  : pyresult B :=
  match m with
  | Return a => k a
  | Raise e => Raise e
  | Unmodelled w => Unmodelled w
  end.

Notation "x <- m ;; k" := (bind m (fun x => k))
  (at level 61, m at next level, right associativity).
Notation "' p <- m ;; k" := (bind m (fun p => k))
  (at level 61, p pattern, m at next level, right associativity).

Definition raise {A : Type} (c : exn_class) (msg : string) : pyresult A :=
  Raise (mkExn c msg).

(** One [except (C1, ..., Cn) as e: body] clause, for a computation of type
    [R]. *)
Record handler (R : Type) : Type := Except {
  h_classes : list exn_class;
  h_body : exn -> R
}.
Arguments Except {R} _ _.
Arguments h_classes {R} _.
Arguments h_body {R} _.

(** The clauses of a [try] statement are tried in the order they are
    written; the first one that names a class of the exception runs, and an
    exception no clause names goes on ([reraise]). *)
Fixpoint dispatch {R : Type} (reraise : exn -> R) (e : exn)
  (hs : list (handler R)) : R :=
  match hs with
  | [] => reraise e
  | h :: hs' =>
      if existsb (isinstance e) (h_classes h) then h_body h e
      else dispatch reraise e hs'
  end.

Definition try_except {A : Type} (body : pyresult A)
  (hs : list (handler (pyresult A))) : pyresult A :=
  match body with
  | Raise e => dispatch Raise e hs
  | r => r
  end.

(** *** Calls that print *)

(** A computation that writes lines to standard output: it is given the
    lines written so far and hands back its outcome with the lines written
    by then, which stay written when it raises. *)
Definition io (A : Type) : Type := list string -> pyresult A * list string.

Definition io_ret {A : Type} (a : A) : io A := fun out => (Return a, out).

Definition io_bind {A B : Type} (m : io A) (k : A -> io B) : io B :=
  fun out =>
    match m out with
    | (Return a, out') => k a out'
    | (Raise e, out') => (Raise e, out')
    | (Unmodelled w, out') => (Unmodelled w, out')
    end.

Notation "x <~ m ;; k" := (io_bind m (fun x => k))
  (at level 61, m at next level, right associativity).
Notation "' p <~ m ;; k" := (io_bind m (fun p => k))
  (at level 61, p pattern, m at next level, right associativity).

(** A call that prints nothing. *)
Definition lift {A : Type} (r : pyresult A) : io A := fun out => (r, out).

(** [print(line)] *)
Definition print (line : string) : io unit :=
  fun out => (Return tt, out ++ [line])%list.

Definition io_try {A : Type} (body : io A) (hs : list (handler (io A)))
  : io A :=
  fun out =>
    match body out with
    | (Raise e, out') => dispatch (fun e => lift (Raise e)) e hs out'
    | r => r
    end.

(* ===================================================================== *)
(** ** Python [str] operations                                             *)
(* ===================================================================== *)

Module PyStr.

Definition code (c : ascii) : nat := nat_of_ascii c.

(** [str.isspace] on the code points below 256. *)
Definition isspace (c : ascii) : bool :=
  let n := code c in
  (((9 <=? n) && (n <=? 13)) || ((28 <=? n) && (n <=? 32))
   || (n =? 133) || (n =? 160))%nat.

Fixpoint lstrip (s : string) : string :=
  match s with
  | String c s' => if isspace c then lstrip s' else s
  | EmptyString => EmptyString
  end.

(** Drops the trailing white space: a character stays when something that
    stays follows it, or when it is not white space itself. *)
Fixpoint rstrip (s : string) : string :=
  match s with
  | EmptyString => EmptyString
  | String c s' =>
      match rstrip s' with
      | EmptyString => if isspace c then EmptyString else String c EmptyString
      | r => String c r
      end
  end.

(** [s.strip()] *)
Definition strip (s : string) : string := rstrip (lstrip s).

(** [s.startswith(c)] and [s.endswith(c)] for a one-character [c]. *)
Definition startswith (s : string) (c : ascii) : bool :=
  match s with
  | String d _ => Ascii.eqb d c
  | EmptyString => false
  end.

Fixpoint endswith (s : string) (c : ascii) : bool :=
  match s with
  | EmptyString => false
  | String d EmptyString => Ascii.eqb d c
  | String _ s' => endswith s' c
  end.

(** A slice bound, as Python clamps it to [0..len]. *)
Definition clamp (len i : Z) : Z :=
  if (i <? 0)%Z then Z.max (i + len) 0 else Z.min i len.

(** [s[i:j]] *)
Definition slice (s : string) (i j : Z) : string :=
  let len := Z.of_nat (String.length s) in
  let a := clamp len i in
  let b := clamp len j in
  if (a <? b)%Z then substring (Z.to_nat a) (Z.to_nat (b - a)) s
  else EmptyString.

(** [str(n)] for an [int]. *)
Definition str_of_Z (z : Z) : string := NilZero.string_of_int (Z.to_int z).

Definition str_of_nat (n : nat) : string := str_of_Z (Z.of_nat n).

(** [sep.join(l)] *)
Fixpoint join (sep : string) (l : list string) : string :=
  match l with
  | [] => EmptyString
  | [x] => x
  | x :: l' => x ++ sep ++ join sep l'
  end.

End PyStr.

(* ===================================================================== *)
(** ** Python values                                                       *)
(* ===================================================================== *)

(** The values [ast.literal_eval] and [json.loads] build.  A [dict] keeps
    its items in insertion order, as CPython does, and [json.dumps] writes
    them in that order. *)
Inductive pyobj : Type :=
  | PNone
  | PBool (b : bool)
  | PInt (z : Z)
  | PStr (s : string)
  | PList (l : list pyobj)
  | PTuple (l : list pyobj)
  | PSet (l : list pyobj)
  | PDict (items : list (pyobj * pyobj)).

Module PyObj.

(** [hash(v)] succeeds: lists, sets and dicts are unhashable, a tuple is
    hashable when its members are. *)
Fixpoint hashable (v : pyobj) : bool :=
  match v with
  | PNone | PBool _ | PInt _ | PStr _ => true
  | PTuple l =>
      (fix all (l : list pyobj) : bool :=
         match l with
         | [] => true
         | x :: l' => hashable x && all l'
         end) l
  | PList _ | PSet _ | PDict _ => false
  end.

(** The number a [bool] or an [int] stands for ([True == 1]). *)
Definition as_int (v : pyobj) : option Z :=
  match v with
  | PBool true => Some 1%Z
  | PBool false => Some 0%Z
  | PInt z => Some z
  | _ => None
  end.

(** [a == b] on hashable values, the comparison a [dict] or a [set] uses for
    its keys. *)
Fixpoint key_eqb (a b : pyobj) : bool :=
  match a, b with
  | PNone, PNone => true
  | PStr s, PStr t => String.eqb s t
  | PTuple l, PTuple m =>
      (fix all2 (l m : list pyobj) : bool :=
         match l, m with
         | [], [] => true
         | x :: l', y :: m' => key_eqb x y && all2 l' m'
         | _, _ => false
         end) l m
  | (PBool _ | PInt _), (PBool _ | PInt _) =>
      match as_int a, as_int b with
      | Some x, Some y => Z.eqb x y
      | _, _ => false
      end
  | _, _ => false
  end.

(** [d[k] = v]: an equal key keeps its place and its first spelling, a new
    key goes last. *)
Fixpoint dict_set (d : list (pyobj * pyobj)) (k v : pyobj)
  : list (pyobj * pyobj) :=
  match d with
  | [] => [(k, v)]
  | (k', v') :: d' =>
      if key_eqb k' k then (k', v) :: d' else (k', v') :: dict_set d' k v
  end.

(** [s.add(v)] *)
Fixpoint set_add (s : list pyobj) (v : pyobj) : list pyobj :=
  match s with
  | [] => [v]
  | x :: s' => if key_eqb x v then s else x :: set_add s' v
  end.

(** The name of the type, for messages. *)
Definition type_name (v : pyobj) : string :=
  match v with
  | PNone => "NoneType" | PBool _ => "bool" | PInt _ => "int"
  | PStr _ => "str" | PList _ => "list" | PTuple _ => "tuple"
  | PSet _ => "set" | PDict _ => "dict"
  end.

End PyObj.

(* ===================================================================== *)
(** ** [ast.literal_eval]                                                  *)
(* ===================================================================== *)

(** [ast.literal_eval(s)] is [_convert(ast.parse(s, mode='eval').body)]:
    the text is parsed as a Python expression and the tree is then turned
    into a value, node by node; a node that is no literal makes [_convert]
    raise [ValueError], a text that is no expression makes the parser raise
    [SyntaxError].  The model follows the two passes. *)
Module Ast.

Import PyStr PyObj.

Inductive constant : Type :=
  | CNone
  | CBool (b : bool)
  | CInt (z : Z)
  | CStr (s : string).

Inductive unaryop : Type := UAdd | USub.

(** The nodes of [ast] the fragment can build. *)
Inductive expr : Type :=
  | EConstant (c : constant)
  | EName (id : string)
  | EList (elts : list expr)
  | ETuple (elts : list expr)
  | ESet (elts : list expr)
  | EDict (items : list (expr * expr))
  | EUnaryOp (op : unaryop) (operand : expr).

(** *** Tokens *)

Inductive token : Type :=
  | TName (id : string)
  | TInt (z : Z)
  | TStr (s : string)
  | TOp (c : ascii).

Definition is_digit (c : ascii) : bool :=
  ((48 <=? code c) && (code c <=? 57))%nat.

Definition is_octal (c : ascii) : bool :=
  ((48 <=? code c) && (code c <=? 55))%nat.

Definition is_ident_start (c : ascii) : bool :=
  (((65 <=? code c) && (code c <=? 90))
   || ((97 <=? code c) && (code c <=? 122))
   || (code c =? 95))%nat.

Definition is_ident_char (c : ascii) : bool := is_ident_start c || is_digit c.

(** The value of a hexadecimal digit. *)
Definition hex_val (c : ascii) : option nat :=
  let n := code c in
  if ((48 <=? n) && (n <=? 57))%nat then Some (n - 48)
  else if ((97 <=? n) && (n <=? 102))%nat then Some (n - 87)
  else if ((65 <=? n) && (n <=? 70))%nat then Some (n - 55)
  else None.

Definition is_quote (c : ascii) : bool :=
  Ascii.eqb c "'" || Ascii.eqb c "034".

(** The punctuation of literals: brackets, comma, colon and the two signs. *)
Definition is_punct (c : ascii) : bool :=
  existsb (Ascii.eqb c)
    ["["; "]"; "("; ")"; "{"; "}"; ","; ":"; "+"; "-"]%char.

(** The keywords of Python 3 other than [True], [False] and [None]. *)
Definition keywords : list string :=
  ["and"; "as"; "assert"; "async"; "await"; "break"; "class"; "continue";
   "def"; "del"; "elif"; "else"; "except"; "finally"; "for"; "from";
   "global"; "if"; "import"; "in"; "is"; "lambda"; "nonlocal"; "not"; "or";
   "pass"; "raise"; "return"; "try"; "while"; "with"; "yield"].

Definition is_keyword (id : string) : bool := existsb (String.eqb id) keywords.

(** The longest prefix whose characters satisfy [p], and the rest. *)
Fixpoint span (p : ascii -> bool) (s : string) : string * string :=
  match s with
  | String c s' =>
      if p c then let (a, b) := span p s' in (String c a, b)
      else (EmptyString, s)
  | EmptyString => (EmptyString, EmptyString)
  end.

Definition next_is (p : ascii -> bool) (s : string) : bool :=
  match s with
  | String c _ => p c
  | EmptyString => false
  end.

(** The number a string of decimal digits writes. *)
Fixpoint int_of_digits (acc : Z) (s : string) : Z :=
  match s with
  | String c s' => int_of_digits (10 * acc + Z.of_nat (code c - 48))%Z s'
  | EmptyString => acc
  end.

Fixpoint all_zeros (s : string) : bool :=
  match s with
  | String c s' => Ascii.eqb c "0" && all_zeros s'
  | EmptyString => true
  end.

(** *** String literals *)

(** Where the scanner is inside a string literal: in plain text, after a
    backslash, inside an octal escape ([v] so far, [n] digits read) or
    inside a [\x] or [\u] escape ([todo] digits to come). *)
Inductive esc_state : Type :=
  | Plain
  | Backslash
  | Octal (v n : nat)
  | Hex (todo v : nat).

(** The character of a code point, when the domain has it. *)
Definition emit (v : nat) (next : option esc_state)
  : pyresult (string * option esc_state) :=
  if (v <? 256)%nat then Return (String (ascii_of_nat v) EmptyString, next)
  else Unmodelled "code point above 255".

(** One character [c] read in plain text, inside quotes [q]: the characters
    it adds to the value and the next state, [None] once the literal is
    closed. *)
Definition plain_step (q c : ascii) : pyresult (string * option esc_state) :=
  if Ascii.eqb c q then Return (EmptyString, None)
  else if Ascii.eqb c "\" then Return (EmptyString, Some Backslash)
  else if (code c =? 10)%nat
       then raise SyntaxError "unterminated string literal"
  else if ((code c =? 13) || (code c =? 0))%nat
       then Unmodelled "control character in a string literal"
  else Return (String c EmptyString, Some Plain).

Definition simple_escape (c : ascii) : option nat :=
  if Ascii.eqb c "\" then Some 92
  else if Ascii.eqb c "'" then Some 39
  else if Ascii.eqb c "034" then Some 34
  else if Ascii.eqb c "a" then Some 7
  else if Ascii.eqb c "b" then Some 8
  else if Ascii.eqb c "f" then Some 12
  else if Ascii.eqb c "n" then Some 10
  else if Ascii.eqb c "r" then Some 13
  else if Ascii.eqb c "t" then Some 9
  else if Ascii.eqb c "v" then Some 11
  else None.

Definition step (q : ascii) (st : esc_state) (c : ascii)
  : pyresult (string * option esc_state) :=
  match st with
  | Plain => plain_step q c
  | Backslash =>
      match simple_escape c with
      | Some v => emit v (Some Plain)
      | None =>
          if is_octal c then Return (EmptyString, Some (Octal (code c - 48) 1))
          else if Ascii.eqb c "x" then Return (EmptyString, Some (Hex 2 0))
          else if Ascii.eqb c "u" then Return (EmptyString, Some (Hex 4 0))
          else Unmodelled "escape sequence"
      end
  | Octal v n =>
      if is_octal c && (n <? 3)%nat
      then Return (EmptyString, Some (Octal (8 * v + (code c - 48)) (S n)))
      else
        '(a, _) <- emit v (Some Plain) ;;
        '(b, next) <- plain_step q c ;;
        Return (a ++ b, next)
  | Hex todo v =>
      match hex_val c with
      | Some d =>
          if (todo <=? 1)%nat then emit (16 * v + d) (Some Plain)
          else Return (EmptyString, Some (Hex (todo - 1) (16 * v + d)))
      | None => raise SyntaxError "truncated escape sequence"
      end
  end.

(** The value of the string literal that was opened with [q], and the text
    after its closing quote. *)
Fixpoint scan_string (q : ascii) (st : esc_state) (s : string)
  : pyresult (string * string) :=
  match s with
  | EmptyString => raise SyntaxError "unterminated string literal"
  | String c r =>
      '(out, next) <- step q st c ;;
      match next with
      | None => Return (out, r)
      | Some st' =>
          '(body, rest) <- scan_string q st' r ;;
          Return (out ++ body, rest)
      end
  end.

(** *** The tokenizer *)

Definition starts_triple (q : ascii) (r : string) : bool :=
  match r with
  | String a (String b _) => Ascii.eqb a q && Ascii.eqb b q
  | _ => false
  end.

(** CPython 3.11 and later refuse to convert more than 4300 digits. *)
Definition max_digits : Z := 4300.

Fixpoint tokens (fuel : nat) (s : string) : pyresult (list token) :=
  match fuel with
  | O => Unmodelled "out of fuel"
  | S f =>
    match s with
    | EmptyString => Return []
    | String c r =>
        if Ascii.eqb c " " || (code c =? 9)%nat then tokens f r
        else if is_digit c then
          let (ds, rest) := span is_digit s in
          if next_is (fun d => is_ident_start d || Ascii.eqb d ".") rest
          then Unmodelled "number syntax"
          else if (max_digits <? Z.of_nat (String.length ds))%Z
          then Unmodelled "integer size"
          else if Ascii.eqb c "0" && negb (all_zeros ds)
          then raise SyntaxError "leading zeros in a decimal integer literal"
          else ts <- tokens f rest ;; Return (TInt (int_of_digits 0 ds) :: ts)
        else if is_ident_start c then
          let (id, rest) := span is_ident_char s in
          if next_is is_quote rest then Unmodelled "string prefix"
          else if is_keyword id then Unmodelled "keyword"
          else ts <- tokens f rest ;; Return (TName id :: ts)
        else if is_quote c then
          if starts_triple c r then Unmodelled "triple-quoted string"
          else
            '(body, rest) <- scan_string c Plain r ;;
            ts <- tokens f rest ;;
            Return (TStr body :: ts)
        else if is_punct c then ts <- tokens f r ;; Return (TOp c :: ts)
        else Unmodelled "character outside the literal grammar"
    end
  end.

(** *** The parser *)

(** Adjacent string literals are one constant (['a' 'b'] is ['ab']). *)
Fixpoint join_strings (s : string) (ts : list token) : string * list token :=
  match ts with
  | TStr t :: ts' => let (u, r) := join_strings t ts' in (s ++ u, r)
  | _ => (s, ts)
  end.

Definition name_expr (id : string) : expr :=
  if String.eqb id "None" then EConstant CNone
  else if String.eqb id "True" then EConstant (CBool true)
  else if String.eqb id "False" then EConstant (CBool false)
  else EName id.

(** After an operand, an opening bracket starts a call or a subscript and a
    sign is a binary operator: both are outside the fragment. *)
Definition after_atom (e : expr) (r : list token)
  : pyresult (expr * list token) :=
  match r with
  | TOp c :: _ =>
      if existsb (Ascii.eqb c) ["("; "["; "+"; "-"]%char
      then Unmodelled "operator after an operand"
      else Return (e, r)
  | _ => Return (e, r)
  end.

(** [at_close close ts]: the tokens after the closer, when [ts] starts with
    it; [None] as a closer stands for the end of the text. *)
Definition at_close (close : option ascii) (ts : list token)
  : option (list token) :=
  match close, ts with
  | None, [] => Some []
  | Some q, TOp c :: r => if Ascii.eqb c q then Some r else None
  | _, _ => None
  end.

Definition expect (c : ascii) (ts : list token) : pyresult (list token) :=
  match ts with
  | TOp d :: r => if Ascii.eqb d c then Return r
                  else raise SyntaxError "invalid syntax"
  | _ => raise SyntaxError "invalid syntax"
  end.

(** [parse_expr] reads one expression, [parse_items] the comma-separated
    expressions up to a closer (the flag tells whether a comma was read) and
    [parse_pairs] the rest of a dict display after a value.  [depth] counts
    the brackets and signs that may still be nested. *)
Fixpoint parse_expr (fuel depth : nat) (ts : list token) {struct fuel}
  : pyresult (expr * list token) :=
  match fuel with
  | O => Unmodelled "out of fuel"
  | S f =>
    match ts with
    | [] => raise SyntaxError "unexpected end of input"
    | TName id :: r => after_atom (name_expr id) r
    | TInt z :: r => after_atom (EConstant (CInt z)) r
    | TStr s :: r =>
        let (s', r') := join_strings s r in
        after_atom (EConstant (CStr s')) r'
    | TOp c :: r =>
        if existsb (Ascii.eqb c) ["+"; "-"; "["; "("; "{"]%char then
          match depth with
          | O => Unmodelled "nesting depth"
          | S d =>
              if Ascii.eqb c "+" then
                '(e, r') <- parse_expr f d r ;; Return (EUnaryOp UAdd e, r')
              else if Ascii.eqb c "-" then
                '(e, r') <- parse_expr f d r ;; Return (EUnaryOp USub e, r')
              else if Ascii.eqb c "[" then
                '(es, _, r') <- parse_items f d (Some "]"%char) r ;;
                after_atom (EList es) r'
              else if Ascii.eqb c "(" then
                '(es, comma, r') <- parse_items f d (Some ")"%char) r ;;
                after_atom (match es, comma with
                            | [e], false => e
                            | _, _ => ETuple es
                            end) r'
              else
                match at_close (Some "}"%char) r with
                | Some r' => after_atom (EDict []) r'
                | None =>
                    '(e1, r1) <- parse_expr f d r ;;
                    match at_close (Some ":"%char) r1 with
                    | Some r2 =>
                        '(v1, r3) <- parse_expr f d r2 ;;
                        '(kvs, r4) <- parse_pairs f d r3 ;;
                        after_atom (EDict ((e1, v1) :: kvs)) r4
                    | None =>
                        match at_close (Some "}"%char) r1 with
                        | Some r2 => after_atom (ESet [e1]) r2
                        | None =>
                            r2 <- expect "," r1 ;;
                            '(es, _, r3) <-
                               parse_items f d (Some "}"%char) r2 ;;
                            after_atom (ESet (e1 :: es)) r3
                        end
                    end
                end
          end
        else raise SyntaxError "invalid syntax"
    end
  end

with parse_items (fuel depth : nat) (close : option ascii) (ts : list token)
  {struct fuel} : pyresult (list expr * bool * list token) :=
  match fuel with
  | O => Unmodelled "out of fuel"
  | S f =>
    match at_close close ts with
    | Some r => Return ([], false, r)
    | None =>
        '(e, r1) <- parse_expr f depth ts ;;
        match at_close close r1 with
        | Some r => Return ([e], false, r)
        | None =>
            r2 <- expect "," r1 ;;
            '(es, _, r3) <- parse_items f depth close r2 ;;
            Return (e :: es, true, r3)
        end
    end
  end

with parse_pairs (fuel depth : nat) (ts : list token) {struct fuel}
  : pyresult (list (expr * expr) * list token) :=
  match fuel with
  | O => Unmodelled "out of fuel"
  | S f =>
    match at_close (Some "}"%char) ts with
    | Some r => Return ([], r)
    | None =>
        r1 <- expect "," ts ;;
        match at_close (Some "}"%char) r1 with
        | Some r => Return ([], r)
        | None =>
            '(k, r2) <- parse_expr f depth r1 ;;
            r3 <- expect ":" r2 ;;
            '(v, r4) <- parse_expr f depth r3 ;;
            '(kvs, r5) <- parse_pairs f depth r4 ;;
            Return ((k, v) :: kvs, r5)
        end
    end
  end.

(** Brackets and signs nested deeper than this are left out: the depth
    CPython's parser accepts depends on its version. *)
Definition max_depth : nat := 20.

(** [ast.parse(s, mode='eval').body]: at the top level, expressions
    separated by commas make a tuple without parentheses.  What CPython does
    with leading blanks depends on its version. *)
Definition parse (s : string) : pyresult expr :=
  if next_is (fun c => Ascii.eqb c " " || (code c =? 9)%nat) s
  then Unmodelled "leading white space"
  else
    ts <- tokens (S (String.length s)) s ;;
    '(es, comma, _) <- parse_items (2 * List.length ts + 2) max_depth None ts ;;
    match es, comma with
    | [], _ => raise SyntaxError "invalid syntax"
    | [e], false => Return e
    | _, _ => Return (ETuple es)
    end.

(** *** From the tree to the value *)

Definition value_of (c : constant) : pyobj :=
  match c with
  | CNone => PNone
  | CBool b => PBool b
  | CInt z => PInt z
  | CStr s => PStr s
  end.

Definition malformed {A : Type} (what : string) : pyresult A :=
  raise ValueError ("malformed node or string: " ++ what).

Definition unhashable {A : Type} (v : pyobj) : pyresult A :=
  raise TypeError ("unhashable type: '" ++ type_name v ++ "'").

(** [_convert]: a [Name] is no literal; a sign applies to a number constant
    only; the members of a set and the keys of a dict are hashed as they are
    added, an item after the other.  Before a boolean, another sign or a
    display, what a sign gives depends on the version of CPython (3.7
    converts the operand first, 3.8 does not). *)
Fixpoint convert (e : expr) : pyresult pyobj :=
  match e with
  | EConstant c => Return (value_of c)
  | EName id => malformed ("Name " ++ id)
  | EList es =>
      l <- (fix go (es : list expr) : pyresult (list pyobj) :=
              match es with
              | [] => Return []
              | x :: es' => v <- convert x ;; vs <- go es' ;; Return (v :: vs)
              end) es ;;
      Return (PList l)
  | ETuple es =>
      l <- (fix go (es : list expr) : pyresult (list pyobj) :=
              match es with
              | [] => Return []
              | x :: es' => v <- convert x ;; vs <- go es' ;; Return (v :: vs)
              end) es ;;
      Return (PTuple l)
  | ESet es =>
      l <- (fix go (acc : list pyobj) (es : list expr)
              : pyresult (list pyobj) :=
              match es with
              | [] => Return acc
              | x :: es' =>
                  v <- convert x ;;
                  if hashable v then go (set_add acc v) es' else unhashable v
              end) [] es ;;
      Return (PSet l)
  | EDict items =>
      d <- (fix go (acc : list (pyobj * pyobj)) (items : list (expr * expr))
              : pyresult (list (pyobj * pyobj)) :=
              match items with
              | [] => Return acc
              | (k, v) :: items' =>
                  k' <- convert k ;;
                  v' <- convert v ;;
                  if hashable k' then go (dict_set acc k' v') items'
                  else unhashable k'
              end) [] items ;;
      Return (PDict d)
  | EUnaryOp op operand =>
      match operand with
      | EConstant (CInt z) =>
          Return (PInt (match op with UAdd => z | USub => - z end))
      | EConstant (CStr _) | EConstant CNone | EName _ =>
          malformed "operand of a sign"
      | _ => Unmodelled "operand of a sign"
      end
  end.

Definition literal_eval (s : string) : pyresult pyobj :=
  e <- parse s ;; convert e.

End Ast.

(* ===================================================================== *)
(** ** [json.dumps] and [json.loads]                                       *)
(* ===================================================================== *)

Module Json.

Import PyStr PyObj.

(** The double quote. *)
Definition dq : ascii := "034".

Definition quoted (s : string) : string :=
  String dq (s ++ String dq EmptyString).

(** *** [json.dumps(obj)], with its default arguments *)

Definition hex_digit (n : nat) : ascii :=
  if (n <? 10)%nat then ascii_of_nat (48 + n) else ascii_of_nat (87 + n).

(** [ensure_ascii] is on: only the characters from the space to the tilde
    are written as they are, the quote and the backslash apart. *)
Definition escape_char (c : ascii) : string :=
  let n := code c in
  if Ascii.eqb c dq then String "\" (String dq EmptyString)
  else if Ascii.eqb c "\" then "\\"
  else if (n =? 10)%nat then "\n"
  else if (n =? 13)%nat then "\r"
  else if (n =? 9)%nat then "\t"
  else if (n =? 12)%nat then "\f"
  else if (n =? 8)%nat then "\b"
  else if ((n <? 32) || (126 <? n))%nat
       then "\u00" ++ String (hex_digit (n / 16))
                        (String (hex_digit (n mod 16)) EmptyString)
  else String c EmptyString.

Fixpoint escape (s : string) : string :=
  match s with
  | String c s' => escape_char c ++ escape s'
  | EmptyString => EmptyString
  end.

Definition encode_str (s : string) : string := quoted (escape s).

(** The text of a dict key: [json.dumps] turns the keys that are no [str]
    into one, and refuses the others. *)
Definition key_str (k : pyobj) : pyresult string :=
  match k with
  | PStr s => Return s
  | PInt z => Return (str_of_Z z)
  | PBool true => Return "true"
  | PBool false => Return "false"
  | PNone => Return "null"
  | _ => raise TypeError
           ("keys must be str, int, float, bool or None, not " ++ type_name k)
  end.

Fixpoint dumps (o : pyobj) : pyresult string :=
  match o with
  | PNone => Return "null"
  | PBool true => Return "true"
  | PBool false => Return "false"
  | PInt z => Return (str_of_Z z)
  | PStr s => Return (encode_str s)
  | PList l | PTuple l =>
      parts <- (fix go (l : list pyobj) : pyresult (list string) :=
                  match l with
                  | [] => Return []
                  | x :: l' => a <- dumps x ;; r <- go l' ;; Return (a :: r)
                  end) l ;;
      Return ("[" ++ join ", " parts ++ "]")
  | PDict items =>
      parts <- (fix go (items : list (pyobj * pyobj))
                  : pyresult (list string) :=
                  match items with
                  | [] => Return []
                  | (k, v) :: items' =>
                      ks <- key_str k ;;
                      vs <- dumps v ;;
                      r <- go items' ;;
                      Return ((encode_str ks ++ ": " ++ vs) :: r)
                  end) items ;;
      Return ("{" ++ join ", " parts ++ "}")
  | PSet _ => raise TypeError "Object of type set is not JSON serializable"
  end.

(** *** [json.loads(s)] *)

Definition decode_error {A : Type} (msg : string) : pyresult A :=
  raise JSONDecodeError msg.

(** The white space of JSON: space, tab, line feed, carriage return. *)
Definition is_ws (c : ascii) : bool :=
  let n := code c in ((n =? 32) || (n =? 9) || (n =? 10) || (n =? 13))%nat.

Fixpoint skip_ws (s : string) : string :=
  match s with
  | String c s' => if is_ws c then skip_ws s' else s
  | EmptyString => EmptyString
  end.

(** Inside a JSON string: plain text, after a backslash, or inside a [\u]
    escape with [todo] digits to come. *)
Inductive str_state : Type :=
  | SPlain
  | SBackslash
  | SHex (todo v : nat).

Definition json_escape (c : ascii) : option nat :=
  if Ascii.eqb c dq then Some 34
  else if Ascii.eqb c "\" then Some 92
  else if Ascii.eqb c "/" then Some 47
  else if Ascii.eqb c "b" then Some 8
  else if Ascii.eqb c "f" then Some 12
  else if Ascii.eqb c "n" then Some 10
  else if Ascii.eqb c "r" then Some 13
  else if Ascii.eqb c "t" then Some 9
  else None.

(** [scanstring], strict: the value of the string whose opening quote was
    read, and the text after its closing quote. *)
Fixpoint scanstring (st : str_state) (s : string)
  : pyresult (string * string) :=
  match s with
  | EmptyString => decode_error "Unterminated string starting at"
  | String c r =>
      match st with
      | SPlain =>
          if Ascii.eqb c dq then Return (EmptyString, r)
          else if Ascii.eqb c "\" then scanstring SBackslash r
          else if (code c <? 32)%nat
          then decode_error "Invalid control character at"
          else '(body, rest) <- scanstring SPlain r ;;
               Return (String c body, rest)
      | SBackslash =>
          if Ascii.eqb c "u" then scanstring (SHex 4 0) r
          else match json_escape c with
               | Some v =>
                   '(body, rest) <- scanstring SPlain r ;;
                   Return (String (ascii_of_nat v) body, rest)
               | None => decode_error "Invalid \escape"
               end
      | SHex todo v =>
          match Ast.hex_val c with
          | None => Unmodelled "malformed \u escape"
          | Some d =>
              let v' := (16 * v + d)%nat in
              if (todo <=? 1)%nat then
                if (v' <? 256)%nat then
                  '(body, rest) <- scanstring SPlain r ;;
                  Return (String (ascii_of_nat v') body, rest)
                else Unmodelled "code point above 255"
              else scanstring (SHex (todo - 1) v') r
          end
      end
  end.

(** What [NUMBER_RE] matches at the start of [s], a sign apart: a lone zero,
    or the digits after a first digit that is not zero. *)
Definition int_part (s : string) : option (string * string) :=
  match s with
  | String c r =>
      if Ascii.eqb c "0" then Some ("0", r)
      else if Ast.is_digit c then Some (Ast.span Ast.is_digit s)
      else None
  | EmptyString => None
  end.

(** A fraction or an exponent follows: the number is a [float]. *)
Definition float_follows (s : string) : bool :=
  match s with
  | String c r =>
      if Ascii.eqb c "." then Ast.next_is Ast.is_digit r
      else if Ascii.eqb c "e" || Ascii.eqb c "E" then
        match r with
        | String d r' =>
            if Ascii.eqb d "+" || Ascii.eqb d "-"
            then Ast.next_is Ast.is_digit r'
            else Ast.is_digit d
        | EmptyString => false
        end
      else false
  | EmptyString => false
  end.

Definition number (neg : bool) (s : string) : pyresult (pyobj * string) :=
  match int_part s with
  | None =>
      if neg && Ast.next_is (Ascii.eqb "I") s
      then Unmodelled "floating point"
      else decode_error "Expecting value"
  | Some (ds, rest) =>
      if float_follows rest then Unmodelled "floating point"
      else if (Ast.max_digits <? Z.of_nat (String.length ds))%Z
      then Unmodelled "integer size"
      else let z := Ast.int_of_digits 0 ds in
           Return (PInt (if neg then - z else z), rest)
  end.

(** [s] starts with [w]: what is left of [s]. *)
Fixpoint after_prefix (w s : string) : option string :=
  match w, s with
  | EmptyString, _ => Some s
  | String a w', String b s' =>
      if Ascii.eqb a b then after_prefix w' s' else None
  | _, EmptyString => None
  end.

(** [scan_once] reads one value; [array_tail] and [object_tail] read what
    follows a member of an array or of an object. *)
Fixpoint scan_once (fuel depth : nat) (s : string) {struct fuel}
  : pyresult (pyobj * string) :=
  match fuel with
  | O => Unmodelled "out of fuel"
  | S f =>
    match s with
    | EmptyString => decode_error "Expecting value"
    | String c r =>
        if Ascii.eqb c dq then
          '(v, rest) <- scanstring SPlain r ;; Return (PStr v, rest)
        else if Ascii.eqb c "{" then
          match depth with
          | O => Unmodelled "nesting depth"
          | S d =>
              match skip_ws r with
              | String c1 r1 =>
                  if Ascii.eqb c1 "}" then Return (PDict [], r1)
                  else if Ascii.eqb c1 dq then
                    '(items, rest) <- object_items f d r1 [] ;;
                    Return (PDict items, rest)
                  else decode_error
                    "Expecting property name enclosed in double quotes"
              | EmptyString => decode_error
                    "Expecting property name enclosed in double quotes"
              end
          end
        else if Ascii.eqb c "[" then
          match depth with
          | O => Unmodelled "nesting depth"
          | S d =>
              match skip_ws r with
              | String c1 r1 =>
                  if Ascii.eqb c1 "]" then Return (PList [], r1)
                  else '(l, rest) <- array_items f d (skip_ws r) ;;
                       Return (PList l, rest)
              | EmptyString => decode_error "Expecting value"
              end
          end
        else if Ascii.eqb c "n" then
          match after_prefix "ull" r with
          | Some rest => Return (PNone, rest)
          | None => decode_error "Expecting value"
          end
        else if Ascii.eqb c "t" then
          match after_prefix "rue" r with
          | Some rest => Return (PBool true, rest)
          | None => decode_error "Expecting value"
          end
        else if Ascii.eqb c "f" then
          match after_prefix "alse" r with
          | Some rest => Return (PBool false, rest)
          | None => decode_error "Expecting value"
          end
        else if Ascii.eqb c "-" then number true r
        else if Ast.is_digit c then number false s
        else if Ascii.eqb c "N" || Ascii.eqb c "I"
        then Unmodelled "floating point"
        else decode_error "Expecting value"
    end
  end

(** The members of an array, from its first value on. *)
with array_items (fuel depth : nat) (s : string) {struct fuel}
  : pyresult (list pyobj * string) :=
  match fuel with
  | O => Unmodelled "out of fuel"
  | S f =>
      '(v, r1) <- scan_once f depth s ;;
      match skip_ws r1 with
      | String c r2 =>
          if Ascii.eqb c "]" then Return ([v], r2)
          else if Ascii.eqb c "," then
            '(l, rest) <- array_items f depth (skip_ws r2) ;;
            Return (v :: l, rest)
          else decode_error "Expecting ',' delimiter"
      | EmptyString => decode_error "Expecting ',' delimiter"
      end
  end

(** The members of an object, after the opening quote of a key; [acc] is
    the dict so far. *)
with object_items (fuel depth : nat) (s : string)
  (acc : list (pyobj * pyobj)) {struct fuel}
  : pyresult (list (pyobj * pyobj) * string) :=
  match fuel with
  | O => Unmodelled "out of fuel"
  | S f =>
      '(k, r1) <- scanstring SPlain s ;;
      match skip_ws r1 with
      | String c r2 =>
          if Ascii.eqb c ":" then
            '(v, r3) <- scan_once f depth (skip_ws r2) ;;
            let acc' := dict_set acc (PStr k) v in
            match skip_ws r3 with
            | String c4 r4 =>
                if Ascii.eqb c4 "}" then Return (acc', r4)
                else if Ascii.eqb c4 "," then
                  match skip_ws r4 with
                  | String c5 r5 =>
                      if Ascii.eqb c5 dq then object_items f depth r5 acc'
                      else decode_error
                        "Expecting property name enclosed in double quotes"
                  | EmptyString => decode_error
                        "Expecting property name enclosed in double quotes"
                  end
                else decode_error "Expecting ',' delimiter"
            | EmptyString => decode_error "Expecting ',' delimiter"
            end
          else decode_error "Expecting ':' delimiter"
      | EmptyString => decode_error "Expecting ':' delimiter"
      end
  end.

(** [json.loads(s)]: one value between optional white space, and nothing
    else. *)
Definition loads (s : string) : pyresult pyobj :=
  let fuel := (2 * String.length s + 2)%nat in
  '(v, rest) <- scan_once fuel Ast.max_depth (skip_ws s) ;;
  match skip_ws rest with
  | EmptyString => Return v
  | _ => decode_error "Extra data"
  end.

End Json.

(* ===================================================================== *)
(** ** The validator: [preprocess_json_string] and [is_valid_json]         *)
(* ===================================================================== *)

Section Validator.

(** The three library calls.  The program is first written over any
    behaviour of theirs, so that what follows from its own control flow is
    kept apart from what follows from the library. *)
Variable literal_eval : string -> pyresult pyobj.
Variable dumps : pyobj -> pyresult string.
Variable loads : string -> pyresult pyobj.

(** [main.py], lines 7 to 21. *)
Definition preprocess_json_string_with (json_str : string) : pyresult string :=
  try_except
    (let json_str := PyStr.strip json_str in
     let json_str :=
       if PyStr.startswith json_str "'" && PyStr.endswith json_str "'"
       then PyStr.slice json_str 1 (-1)
       else json_str in
     python_obj <- literal_eval json_str ;;
     dumps python_obj)
    [Except [ValueError; SyntaxError]
       (fun e => raise ValueError ("Failed to process string: " ++ exn_str e))].

(** [main.py], lines 23 to 38.  The argument is the cell of a row: a [str],
    or [None] when the row is too short; [not json_str] holds of [None] and
    of the empty string. *)
Definition is_valid_json_with (json_str : option string)
  : pyresult (bool * string) :=
  match json_str with
  | None | Some EmptyString => Return (false, "Empty string")
  | Some s =>
      try_except
        (processed_str <- preprocess_json_string_with s ;;
         _ <- loads processed_str ;;
         Return (true, EmptyString))
        [Except [ValueError]
           (fun e => Return (false, "Preprocessing error: " ++ exn_str e));
         Except [JSONDecodeError]
           (fun e => Return (false, "JSON decode error: " ++ exn_str e))]
  end.

End Validator.

Definition preprocess_json_string : string -> pyresult string :=
  preprocess_json_string_with Ast.literal_eval Json.dumps.

(** What the clause of [preprocess_json_string] makes of the exception it
    catches. *)
Definition wrapped (e : exn) : exn :=
  mkExn ValueError ("Failed to process string: " ++ exn_str e).

Definition is_valid_json : option string -> pyresult (bool * string) :=
  is_valid_json_with Ast.literal_eval Json.dumps Json.loads.

(* ===================================================================== *)
(** ** [csv.DictReader]                                                    *)
(* ===================================================================== *)

Module Csv.

(** What [open] and [csv.reader] make of a path: [open] raises, or the
    reader yields [rows] (a list of fields for each record of the file, the
    empty list for a blank line) and then either ends or raises [failure]
    (a decoding error, a [csv.Error]). *)
Inductive file : Type :=
  | OpenFails (e : exn)
  | Opens (rows : list (list string)) (failure : option exn).

(** The dict a [DictReader] makes of a record: for each field name a [str],
    or [None] (the [restval]) when the record is too short.  The fields a
    longer record has in excess go under the key [None], which no field
    name equals. *)
Definition row_dict : Type := list (string * option string).

(** [d[k] = v] *)
Fixpoint set_item (d : row_dict) (k : string) (v : option string) : row_dict :=
  match d with
  | [] => [(k, v)]
  | (k', v') :: d' =>
      if String.eqb k' k then (k', v) :: d' else (k', v') :: set_item d' k v
  end.

(** [d[k]], [None] standing for a [KeyError]. *)
Fixpoint get_item (d : row_dict) (k : string) : option (option string) :=
  match d with
  | [] => None
  | (k', v) :: d' => if String.eqb k' k then Some v else get_item d' k
  end.

(** [d = dict(zip(fieldnames, row))], then [d[key] = None] for each [key] of
    [fieldnames[len(row):]]. *)
Definition make_row (fieldnames row : list string) : row_dict :=
  let d := fold_left (fun d kv => set_item d (fst kv) (Some (snd kv)))
             (combine fieldnames row) [] in
  fold_left (fun d k => set_item d k None)
    (skipn (List.length row) fieldnames) d.

(** [x in l] for a list of [str]. *)
Definition contains (l : list string) (x : string) : bool :=
  existsb (String.eqb x) l.

End Csv.

(* ===================================================================== *)
(** ** The row driver: [validate_csv_json_field]                           *)
(* ===================================================================== *)

(** [str(json_str)] inside an f-string. *)
Definition show (v : option string) : string :=
  match v with
  | Some s => s
  | None => "None"
  end.

(** ["-" * 50] *)
Definition separator : string := String.concat EmptyString (repeat "-" 50).

Section Driver.

(** The file system: what opening a path gives. *)
Variable fs : string -> Csv.file.

(** [main.py], lines 62 to 73: the body of the loop, for the record [r] of
    line [line_num]; it hands back the two counters. *)
Definition row_body (fieldnames : list string) (field_name : string)
  (r : list string) (line_num good_rows bad_rows : nat) : io (nat * nat) :=
  let row := Csv.make_row fieldnames r in
  json_str <~ lift (match Csv.get_item row field_name with
                    | Some v => Return v
                    | None => raise KeyError field_name
                    end) ;;
  '(is_valid, error) <~ lift (is_valid_json json_str) ;;
  if negb is_valid then
    _ <~ print ("Line " ++ PyStr.str_of_nat line_num ++ ": Invalid JSON") ;;
    _ <~ print ("Content: " ++ show json_str) ;;
    _ <~ print ("Error: " ++ error) ;;
    _ <~ print separator ;;
    io_ret (good_rows, bad_rows + 1)
  else
    io_ret (good_rows + 1, bad_rows).

(** [main.py], line 61: the loop over the records after the header.  [rows]
    and [failure] are what the reader has still to yield; a [DictReader]
    passes over the empty records without counting them. *)
Fixpoint rows_loop (fieldnames : list string) (field_name : string)
  (rows : list (list string)) (failure : option exn)
  (line_num good_rows bad_rows : nat) : io (nat * nat) :=
  match rows with
  | [] =>
      match failure with
      | Some e => lift (Raise e)
      | None => io_ret (good_rows, bad_rows)
      end
  | [] :: rows' =>
      rows_loop fieldnames field_name rows' failure
        line_num good_rows bad_rows
  | r :: rows' =>
      '(good_rows', bad_rows') <~
         row_body fieldnames field_name r line_num good_rows bad_rows ;;
      rows_loop fieldnames field_name rows' failure
        (S line_num) good_rows' bad_rows'
  end.

(** The summary line of line 75. *)
Definition summary (good_rows bad_rows : nat) : string :=
  "Validation complete. " ++ PyStr.str_of_nat good_rows ++ " valid rows, "
  ++ PyStr.str_of_nat bad_rows ++ " invalid rows".

(** [main.py], lines 40 to 79.  The first record the reader yields is the
    header; a file without any leaves [reader.fieldnames] at [None], and
    [field_name not in None] raises [TypeError]. *)
Definition validate_csv_json_field (csv_file field_name : string) : io unit :=
  io_try
    (match fs csv_file with
     | Csv.OpenFails e => lift (Raise e)
     | Csv.Opens [] (Some e) => lift (Raise e)
     | Csv.Opens [] None =>
         lift (raise TypeError "argument of type 'NoneType' is not iterable")
     | Csv.Opens (fieldnames :: rows) failure =>
         if negb (Csv.contains fieldnames field_name) then
           print ("Error: Field '" ++ field_name
                  ++ "' not found in CSV. Available fields: "
                  ++ PyStr.join ", " fieldnames)
         else
           '(good_rows, bad_rows) <~
              rows_loop fieldnames field_name rows failure 2 0 0 ;;
           print (summary good_rows bad_rows)
     end)
    [Except [FileNotFoundError]
       (fun _ => print ("Error: File '" ++ csv_file ++ "' not found"));
     Except [Exception]
       (fun e => print ("Error processing file: " ++ exn_str e))].

End Driver.

(** The records a [DictReader] turns into rows: those that are not empty. *)
Definition is_data_row (r : list string) : bool :=
  match r with
  | [] => false
  | _ :: _ => true
  end.

Definition data_rows (rows : list (list string)) : nat :=
  List.length (filter is_data_row rows).


(** The four lines printed for an invalid row. *)
Definition diagnostic (line_num : nat) (json_str : option string)
  (error : string) : list string :=
  ["Line " ++ PyStr.str_of_nat line_num ++ ": Invalid JSON";
   "Content: " ++ show json_str;
   "Error: " ++ error;
   separator].

(* ===================================================================== *)
(** ** Lists in Python's spelling                                          *)
(* ===================================================================== *)

(** The lists [repr] writes for a list of strings, integers, booleans and
    [None]: ["['a', 'b', 1, True]"]. *)
Module PyList.

Inductive item : Type :=
  | IStr (s : string)
  | IInt (z : Z)
  | IBool (b : bool)
  | INone.

(** A printable ASCII character other than the two quotes and the
    backslash: [repr] and [json.dumps] write it as it is. *)
Definition plain_char (c : ascii) : bool :=
  let n := PyStr.code c in
  ((32 <=? n) && (n <=? 126)
   && negb (n =? 39) && negb (n =? 34) && negb (n =? 92))%nat.

Fixpoint plain (s : string) : bool :=
  match s with
  | String c s' => plain_char c && plain s'
  | EmptyString => true
  end.

(** An integer of at most 4300 digits. *)
Definition small (z : Z) : bool :=
  (Z.of_nat (String.length (PyStr.str_of_Z (Z.abs z))) <=? Ast.max_digits)%Z.

Definition item_ok (i : item) : bool :=
  match i with
  | IStr s => plain s
  | IInt z => small z
  | IBool _ | INone => true
  end.

(** [repr(i)] *)
Definition repr (i : item) : string :=
  match i with
  | IStr s => "'" ++ s ++ "'"
  | IInt z => PyStr.str_of_Z z
  | IBool true => "True"
  | IBool false => "False"
  | INone => "None"
  end.

(** The JSON text of an item. *)
Definition json (i : item) : string :=
  match i with
  | IStr s => Json.quoted s
  | IInt z => PyStr.str_of_Z z
  | IBool true => "true"
  | IBool false => "false"
  | INone => "null"
  end.

Definition value (i : item) : pyobj :=
  match i with
  | IStr s => PStr s
  | IInt z => PInt z
  | IBool b => PBool b
  | INone => PNone
  end.

(** [repr(l)]: the items between brackets, a comma and a blank between
    two of them. *)
Definition python_list (l : list item) : string :=
  "[" ++ PyStr.join ", " (map repr l) ++ "]".

(** The JSON array of the same items, as [json.dumps] separates them. *)
Definition json_array (l : list item) : string :=
  "[" ++ PyStr.join ", " (map json l) ++ "]".

(** The text after the opening bracket, item by item. *)
Fixpoint tail_text (f : item -> string) (l : list item) : string :=
  match l with
  | [] => "]"
  | x :: l' =>
      f x ++ match l' with
             | [] => "]"
             | _ :: _ => ", " ++ tail_text f l'
             end
  end.

(** The tokens and the tree of an item. *)
Definition item_tokens (i : item) : list Ast.token :=
  match i with
  | IStr s => [Ast.TStr s]
  | IInt z => if (z <? 0)%Z then [Ast.TOp "-"; Ast.TInt (- z)]
              else [Ast.TInt z]
  | IBool true => [Ast.TName "True"]
  | IBool false => [Ast.TName "False"]
  | INone => [Ast.TName "None"]
  end.

Definition item_expr (i : item) : Ast.expr :=
  match i with
  | IStr s => Ast.EConstant (Ast.CStr s)
  | IInt z => if (z <? 0)%Z
              then Ast.EUnaryOp Ast.USub (Ast.EConstant (Ast.CInt (- z)))
              else Ast.EConstant (Ast.CInt z)
  | IBool b => Ast.EConstant (Ast.CBool b)
  | INone => Ast.EConstant Ast.CNone
  end.

Fixpoint tail_tokens (l : list item) : list Ast.token :=
  match l with
  | [] => [Ast.TOp "]"]
  | x :: l' =>
      (item_tokens x ++ match l' with
                        | [] => [Ast.TOp "]"]
                        | _ :: _ => Ast.TOp "," :: tail_tokens l'
                        end)%list
  end.

(** The text of a natural number: a digit that is not zero followed by
    digits, or a lone zero. *)
Inductive numeral : string -> Z -> Prop :=
  | numeral_zero : numeral "0" 0
  | numeral_pos (c : ascii) (ds : string) (p : positive) :
      Ast.is_digit c = true -> c <> "0"%char ->
      (forall rest,
          Ast.next_is Ast.is_digit rest = false ->
          Ast.span Ast.is_digit (String c ds ++ rest) = (String c ds, rest)) ->
      Ast.int_of_digits 0 (String c ds) = Z.pos p ->
      numeral (String c ds) (Z.pos p).

End PyList.

(** What follows an item in the text of a list: a comma or the closing
    bracket. *)
Definition delimited (rest : string) : Prop :=
  exists c r, rest = String c r /\ (c = ","%char \/ c = "]"%char).

(** The same for the tokens. *)
Definition closes (rest : list Ast.token) : Prop :=
  exists c r, rest = Ast.TOp c :: r /\ (c = ","%char \/ c = "]"%char).

(* ===================================================================== *)
(** ** The command line: [main]                                            *)
(* ===================================================================== *)

(** How the process ends: with an exit status, of [sys.exit] or 0 when
    [main] returns; with an exception nothing catches; or outside the
    model. *)
Inductive process_end : Type :=
  | Exits (status : nat)
  | Dies (e : exn)
  | NotModelled (why : string).

Definition usage : string := "Usage: python script.py <csv_file> <field_name>".

(** [main.py], lines 81 to 89, for [sys.argv = argv]: the list has three
    members exactly when it is the name of the script and two arguments. *)
Definition main (fs : string -> Csv.file) (argv : list string)
  : list string -> process_end * list string :=
  fun out =>
    match argv with
    | [_; csv_file; field_name] =>
        match validate_csv_json_field fs csv_file field_name out with
        | (Return _, out') => (Exits 0, out')
        | (Raise e, out') => (Dies e, out')
        | (Unmodelled w, out') => (NotModelled w, out')
        end
    | _ => (Exits 1, snd (print usage out))
    end.

(** The text [preprocess_json_string] hands to [ast.literal_eval]: lines 13
    to 15 of [main.py]. *)
Definition literal_text (json_str : string) : string :=
  let json_str := PyStr.strip json_str in
  if PyStr.startswith json_str "'" && PyStr.endswith json_str "'"
  then PyStr.slice json_str 1 (-1)
  else json_str.

(** What may follow a value in a JSON text that [json.dumps] wrote: the end
    of the text, a comma or a closing bracket. *)
Definition value_end (rest : string) : Prop :=
  match rest with
  | EmptyString => True
  | String c _ => c = ","%char \/ c = "]"%char \/ c = "}"%char
  end.

(** The two limits of the model of [json.loads] that a text written by
    [json.dumps] can meet: brackets nested deeper than [Ast.max_depth] and
    integers of more than [Ast.max_digits] digits. *)
Definition beyond_limits (why : string) : Prop :=
  why = "nesting depth" \/ why = "integer size".

(** A reader came to the end of what it had to read, [rest] being left, or
    it met one of the two limits; it did not raise and did not run out of
    fuel. *)
Definition reads {A : Type} (r : pyresult (A * string)) (rest : string)
  : Prop :=
  match r with
  | Return (_, rest') => rest' = rest
  | Raise _ => False
  | Unmodelled why => beyond_limits why
  end.

(** A text that [json.loads] reads as one value wherever [json.dumps] may
    have put it, with a fuel of its length, and that starts with a character
    of a value. *)
Definition readable (a : string) : Prop :=
  (forall f d rest, String.length a <= f -> value_end rest ->
                    reads (Json.scan_once f d (a ++ rest)) rest)
  /\ exists c r, a = String c r
                 /\ Json.is_ws c = false
                 /\ Ascii.eqb c "]" = false.

(** The text of the members of an object after the opening quote of the
    first key, as [json.dumps] writes it: each key closed by its quote, a
    colon and a blank, the value, and a comma and a blank before the next
    member. *)
Fixpoint members_text (kvs : list (string * string)) (rest : string)
  : string :=
  match kvs with
  | [] => rest
  | (ks, vs) :: kvs' =>
      Json.escape ks
      ++ String Json.dq
           (String ":" (String " "
              (vs ++ match kvs' with
                     | [] => String "}" rest
                     | _ :: _ =>
                         String "," (String " "
                           (String Json.dq (members_text kvs' rest)))
                     end)))
  end.

(** The inner loops of [Json.dumps], by name: the texts of the items of a
    list, and the key and the text of the value of each item of a dict. *)
Fixpoint dumps_all (l : list pyobj) : pyresult (list string) :=
  match l with
  | [] => Return []
  | x :: l' => a <- Json.dumps x ;; r <- dumps_all l' ;; Return (a :: r)
  end.

Fixpoint dumps_members (items : list (pyobj * pyobj))
  : pyresult (list (string * string)) :=
  match items with
  | [] => Return []
  | (k, v) :: items' =>
      ks <- Json.key_str k ;;
      vs <- Json.dumps v ;;
      r <- dumps_members items' ;;
      Return ((ks, vs) :: r)
  end.

(* ===================================================================== *)
(** * Results                                                              *)
(* ===================================================================== *)

(** ** Strings between single quotes *)

Module PyStrFacts.

Import PyStr.

Lemma length_app (s u : string) :
  String.length (s ++ u) = String.length s + String.length u.
Proof. induction s as [|c s IH]; simpl; [reflexivity | now rewrite IH]. Qed.

Lemma substring_prefix (s u : string) :
  substring 0 (String.length s) (s ++ u) = s.
Proof.
  induction s as [|c s IH]; simpl.
  - now destruct u.
  - now rewrite IH.
Qed.

Lemma app_char_not_empty (s : string) (c : ascii) :
  exists d r, s ++ String c EmptyString = String d r.
Proof. destruct s as [|d s]; simpl; eauto. Qed.

(** A text that ends with a character that is no white space loses nothing
    on its right. *)
Lemma rstrip_ends_black (s : string) (c : ascii) :
  isspace c = false ->
  rstrip (s ++ String c EmptyString) = s ++ String c EmptyString.
Proof.
  intros Hc. induction s as [|a s IH]; simpl.
  - now rewrite Hc.
  - rewrite IH. destruct (app_char_not_empty s c) as (d & r & ->).
    reflexivity.
Qed.

Lemma endswith_last (s : string) (c : ascii) :
  endswith (s ++ String c EmptyString) c = true.
Proof.
  induction s as [|a s IH]; simpl.
  - apply Ascii.eqb_refl.
  - destruct (app_char_not_empty s c) as (d & r & E).
    rewrite E in *. exact IH.
Qed.

(** [s[1:-1]] drops the first and the last character. *)
Lemma slice_inner (a b : ascii) (t : string) :
  slice (String a (t ++ String b EmptyString)) 1 (-1) = t.
Proof.
  unfold slice, clamp. cbn [String.length].
  rewrite length_app. cbn [String.length].
  replace (1 <? 0)%Z with false by reflexivity.
  replace (-1 <? 0)%Z with true by reflexivity.
  set (n := String.length t).
  rewrite Z.min_l, Z.max_l by lia.
  destruct (Z.ltb_spec 1 (-1 + Z.of_nat (S (n + 1)))) as [H|H].
  - replace (Z.to_nat 1) with 1%nat by reflexivity.
    replace (Z.to_nat (-1 + Z.of_nat (S (n + 1)) - 1)) with n by lia.
    cbn [substring]. apply substring_prefix.
  - assert (n = 0) as Hn by lia. subst n.
    destruct t; [reflexivity | discriminate Hn].
Qed.

(** What [preprocess_json_string] hands to [ast.literal_eval] when the text
    stands between single quotes: the text, its two quotes taken off. *)
Lemma unquote (t : string) :
  let s := strip ("'" ++ t ++ "'") in
  (if startswith s "'" && endswith s "'" then slice s 1 (-1) else s) = t.
Proof.
  cbn zeta. unfold strip.
  change ("'" ++ t ++ "'") with (String "'" (t ++ "'")).
  change (lstrip (String "'" (t ++ "'"))) with (String "'" (t ++ "'")).
  change (String "'" (t ++ "'")) with (("'" ++ t) ++ "'") at 1 2 3.
  assert (("'" ++ t) ++ "'" = String "'" (t ++ "'")) as E by reflexivity.
  rewrite (rstrip_ends_black ("'" ++ t) "'" eq_refl).
  rewrite endswith_last. rewrite E. cbn [startswith].
  rewrite Ascii.eqb_refl. cbn [andb]. apply slice_inner.
Qed.

End PyStrFacts.

(** ** The control flow of the validator, for any behaviour of the library *)

Section ValidatorFlow.

Variable literal_eval : string -> pyresult pyobj.
Variable dumps : pyobj -> pyresult string.
Variable loads : string -> pyresult pyobj.

(** A [ValueError] and a [SyntaxError] are wrapped. *)
Lemma preprocess_wraps (body : pyresult string) (e : exn) :
  body = Raise e ->
  exn_cls e = ValueError \/ exn_cls e = SyntaxError ->
  try_except body
    [Except [ValueError; SyntaxError]
       (fun e => raise ValueError ("Failed to process string: " ++ exn_str e))]
  = Raise (wrapped e).
Proof.
  intros -> [H|H]; destruct e as [c m]; simpl in H; subst c; reflexivity.
Qed.

(** Between single quotes, the text itself is evaluated. *)
Lemma preprocess_quoted (t : string) :
  preprocess_json_string_with literal_eval dumps ("'" ++ t ++ "'") =
  try_except (python_obj <- literal_eval t ;; dumps python_obj)
    [Except [ValueError; SyntaxError]
       (fun e => raise ValueError ("Failed to process string: " ++ exn_str e))].
Proof.
  unfold preprocess_json_string_with. cbn zeta.
  now rewrite (PyStrFacts.unquote t).
Qed.

Lemma preprocess_quoted_raises (t : string) (e : exn) :
  literal_eval t = Raise e ->
  exn_cls e = ValueError \/ exn_cls e = SyntaxError ->
  preprocess_json_string_with literal_eval dumps ("'" ++ t ++ "'")
  = Raise (wrapped e).
Proof.
  intros He Hc. rewrite preprocess_quoted.
  apply preprocess_wraps; [now rewrite He | exact Hc].
Qed.

(** A failure of the normalisation is a preprocessing error. *)
Lemma validate_preprocess_raises (s : string) (e : exn) :
  s <> EmptyString ->
  preprocess_json_string_with literal_eval dumps s = Raise e ->
  isinstance e ValueError = true ->
  is_valid_json_with literal_eval dumps loads (Some s)
  = Return (false, "Preprocessing error: " ++ exn_str e).
Proof.
  intros Hs He Hc. unfold is_valid_json_with.
  destruct s as [|c s]; [now elim Hs|].
  rewrite He. cbn [bind try_except dispatch h_classes existsb].
  now rewrite Hc.
Qed.

Lemma validate_quoted_raises (t : string) (e : exn) :
  literal_eval t = Raise e ->
  exn_cls e = ValueError \/ exn_cls e = SyntaxError ->
  is_valid_json_with literal_eval dumps loads (Some ("'" ++ t ++ "'")) =
  Return (false,
          "Preprocessing error: Failed to process string: " ++ exn_str e).
Proof.
  intros He Hc.
  apply (validate_preprocess_raises ("'" ++ t ++ "'") (wrapped e)).
  - discriminate.
  - now apply preprocess_quoted_raises.
  - reflexivity.
Qed.

(** The message of an invalid outcome is one of the first two of
    [is_valid_json], whatever the library does: the third clause of its
    [try] statement never runs. *)
Lemma validate_messages (v : option string) (b : bool) (msg : string) :
  is_valid_json_with literal_eval dumps loads v = Return (b, msg) ->
  (b = true /\ msg = EmptyString)
  \/ (b = false /\ msg = "Empty string")
  \/ (b = false /\ exists e, msg = "Preprocessing error: " ++ exn_str e).
Proof.
  unfold is_valid_json_with.
  destruct v as [[|c s]|]; try (intros [= <- <-]; now (right; left)).
  destruct (preprocess_json_string_with literal_eval dumps (String c s))
    as [p|e|w]; cbn [bind try_except].
  - destruct (loads p) as [x|e|w]; cbn [bind try_except].
    + intros [= <- <-]. now left.
    + cbn [dispatch h_classes h_body existsb].
      destruct (isinstance e ValueError) eqn:Hv; cbn [orb].
      * intros [= <- <-]. right; right. split; [reflexivity | now exists e].
      * destruct (isinstance e JSONDecodeError) eqn:Hj; [|discriminate].
        exfalso. destruct e as [[] m]; discriminate.
    + discriminate.
  - cbn [dispatch h_classes h_body existsb].
    destruct (isinstance e ValueError) eqn:Hv; cbn [orb].
    + intros [= <- <-]. right; right. split; [reflexivity | now exists e].
    + destruct (isinstance e JSONDecodeError) eqn:Hj; [|discriminate].
      exfalso. destruct e as [[] m]; discriminate.
  - discriminate.
Qed.

End ValidatorFlow.

(** ** The validator on the empty string and between single quotes *)

(** C6.  [is_valid_json] answers the empty string with [False] and the
    message "Empty string", and it does so without a call to the library:
    the answer is the same for any behaviour of [ast.literal_eval],
    [json.dumps] and [json.loads], those that would raise on every text
    included. *)
Theorem empty_string_is_invalid :
  is_valid_json (Some EmptyString) = Return (false, "Empty string")
  /\ forall literal_eval dumps loads,
       is_valid_json_with literal_eval dumps loads (Some EmptyString)
       = Return (false, "Empty string").
Proof. split; reflexivity. Qed.

(** C5.  The text [{[], x}] is no well-formed literal: it holds the name
    [x].  Between single quotes it is not answered with [False] and a
    "Preprocessing error:" message: [ast.literal_eval] converts the members
    of the set display in order and raises [TypeError] on the list, before
    it comes to the name; the clause of [preprocess_json_string] names
    [ValueError] and [SyntaxError] only and that of [is_valid_json]
    [ValueError] only, so that the call raises and returns no outcome.
    With the two members in the other order the name comes first, the
    error is a [ValueError], and the answer is the one that is expected. *)
Theorem quoted_malformed_text_raises_type_error :
  Ast.parse "{[], x}" = Return (Ast.ESet [Ast.EList []; Ast.EName "x"])
  /\ Ast.literal_eval "{[], x}"
     = Raise (mkExn TypeError "unhashable type: 'list'")
  /\ is_valid_json (Some "'{[], x}'")
     = Raise (mkExn TypeError "unhashable type: 'list'")
  /\ is_valid_json (Some "'{x, []}'")
     = Return (false,
               "Preprocessing error: Failed to process string: "
               ++ "malformed node or string: Name x").
Proof. repeat split; vm_compute; reflexivity. Qed.

(** C10.  Of the text ['{[], x}'], [preprocess_json_string] takes off one
    quote at each end, and what is left is no well-formed literal (it holds
    the name [x]); yet the normalisation does not raise the [ValueError] of
    its clause but the [TypeError] of [ast.literal_eval], which
    [is_valid_json] does not catch: the call raises instead of answering
    [False] with a "Preprocessing error:" message, as it does for ['abc']. *)
Theorem stripped_malformed_text_raises_type_error :
  PyStr.slice (PyStr.strip "'{[], x}'") 1 (-1) = "{[], x}"
  /\ preprocess_json_string "'{[], x}'"
     = Raise (mkExn TypeError "unhashable type: 'list'")
  /\ is_valid_json (Some "'{[], x}'")
     = Raise (mkExn TypeError "unhashable type: 'list'")
  /\ is_valid_json (Some "'abc'")
     = Return (false,
               "Preprocessing error: Failed to process string: "
               ++ "malformed node or string: Name abc").
Proof. repeat split; vm_compute; reflexivity. Qed.

(** X18.  Of a text between single quotes, [preprocess_json_string] takes
    off one quote at each end and evaluates what is left; when
    [ast.literal_eval] raises [ValueError] or [SyntaxError] on that, as for
    ['abc'], the normalisation raises the [ValueError] of its clause and
    [is_valid_json] answers [False] with the message "Preprocessing error:
    Failed to process string: " and the text of the exception. *)
Theorem single_quotes_are_stripped_once (t : string) (e : exn) :
  Ast.literal_eval t = Raise e ->
  exn_cls e = ValueError \/ exn_cls e = SyntaxError ->
  PyStr.slice (PyStr.strip ("'" ++ t ++ "'")) 1 (-1) = t
  /\ preprocess_json_string ("'" ++ t ++ "'") = Raise (wrapped e)
  /\ is_valid_json (Some ("'" ++ t ++ "'")) =
     Return (false,
             "Preprocessing error: Failed to process string: " ++ exn_str e).
Proof.
  intros He Hc. split; [|split].
  - generalize (PyStrFacts.unquote t). cbn zeta.
    destruct (PyStr.startswith _ _ && PyStr.endswith _ _) eqn:Hq.
    + trivial.
    + intros E. exfalso. revert Hq. unfold PyStr.strip.
      change ("'" ++ t ++ "'") with (("'" ++ t) ++ "'").
      change (PyStr.lstrip (("'" ++ t) ++ "'")) with (("'" ++ t) ++ "'").
      rewrite (PyStrFacts.rstrip_ends_black ("'" ++ t) "'" eq_refl).
      rewrite PyStrFacts.endswith_last. discriminate.
  - now apply preprocess_quoted_raises.
  - now apply validate_quoted_raises.
Qed.

Lemma single_quotes_are_stripped_once_witness :
  PyStr.slice (PyStr.strip "'abc'") 1 (-1) = "abc"
  /\ preprocess_json_string "'abc'" =
     Raise (wrapped (mkExn ValueError "malformed node or string: Name abc"))
  /\ is_valid_json (Some "'abc'") =
     Return (false,
             "Preprocessing error: Failed to process string: "
             ++ "malformed node or string: Name abc").
Proof.
  apply (single_quotes_are_stripped_once "abc"
           (mkExn ValueError "malformed node or string: Name abc")).
  - vm_compute. reflexivity.
  - left. reflexivity.
Defined.

(** Two quotes at each end: one is taken off, and what is left is a string
    literal. *)
Example doubly_quoted_is_valid :
  is_valid_json (Some "''abc''") = Return (true, EmptyString).
Proof. vm_compute. reflexivity. Qed.

(** ** The two failure classes *)

(** No outcome of [is_valid_json] carries the "JSON decode error:" prefix,
    whatever the library does. *)
Lemma json_decode_error_is_never_reported
  (literal_eval : string -> pyresult pyobj)
  (dumps : pyobj -> pyresult string)
  (loads : string -> pyresult pyobj)
  (v : option string) (b : bool) (msg : string) :
  is_valid_json_with literal_eval dumps loads v = Return (b, msg) ->
  String.prefix "JSON decode error:" msg = false.
Proof.
  intros H. apply validate_messages in H.
  destruct H as [[_ ->]|[[_ ->]|[_ [e ->]]]]; reflexivity.
Qed.

(** ** Strict JSON that is no Python literal *)

(** C1.  The text [true] is strict JSON ([json.loads] returns [True] on
    it), and [is_valid_json] answers it with [False]: the normalisation
    reads [true] as a name, which is no literal. *)
Theorem json_true_is_rejected :
  Json.loads "true" = Return (PBool true)
  /\ is_valid_json (Some "true") =
     Return (false,
             "Preprocessing error: Failed to process string: "
             ++ "malformed node or string: Name true").
Proof. split; vm_compute; reflexivity. Qed.

(** C4.  The text [null] is strict JSON, and parsing it gives [None]; its
    normalisation raises, so that there is no normalised form to parse and
    to compare. *)
Theorem normalizing_json_null_raises :
  Json.loads "null" = Return PNone
  /\ preprocess_json_string "null" =
     Raise (wrapped (mkExn ValueError "malformed node or string: Name null")).
Proof. split; vm_compute; reflexivity. Qed.

(** ** The rows of a [DictReader] *)

Module CsvFacts.

Import Csv.

Lemma get_set_same (d : row_dict) (k : string) (v : option string) :
  get_item (set_item d k v) k = Some v.
Proof.
  induction d as [|[k' v'] d IH]; simpl.
  - now rewrite String.eqb_refl.
  - destruct (String.eqb k' k) eqn:E; simpl; now rewrite E.
Qed.

Lemma get_set_other (d : row_dict) (k k' : string) (v : option string) :
  k' <> k -> get_item (set_item d k' v) k = get_item d k.
Proof.
  intros Hne. induction d as [|[k0 v0] d IH]; simpl.
  - destruct (String.eqb_spec k' k); [contradiction | reflexivity].
  - destruct (String.eqb_spec k0 k') as [->|Hk]; simpl.
    + destruct (String.eqb_spec k' k); [contradiction | reflexivity].
    + now rewrite IH.
Qed.


(** The names after the last field of a short record are set to [None]. *)
Lemma get_after_rest (keys : list string) (d : row_dict) (k : string) :
  In k keys \/ get_item d k = Some None ->
  get_item (fold_left (fun d k => set_item d k None) keys d) k = Some None.
Proof.
  revert d. induction keys as [|a keys IH]; intros d H; simpl.
  - destruct H as [[]|H]; exact H.
  - apply IH. destruct (String.eqb_spec a k) as [->|Hne].
    + right. apply get_set_same.
    + destruct H as [[H|H]|H]; [contradiction | now left |].
      right. now rewrite get_set_other.
Qed.






(** The cell of a field the record does not reach is [None]. *)
Lemma short_row_cell (fieldnames row : list string) (field_name : string) :
  In field_name (skipn (List.length row) fieldnames) ->
  get_item (make_row fieldnames row) field_name = Some None.
Proof. intros H. unfold make_row. apply get_after_rest. now left. Qed.

End CsvFacts.

(** ** The row driver *)

(** What one pass through the body of the loop does, by the answer of
    [is_valid_json]. *)
Lemma row_body_invalid (fieldnames : list string) (field_name : string)
  (r : list string) (n g b : nat) (out : list string)
  (v : option string) (error : string) :
  Csv.get_item (Csv.make_row fieldnames r) field_name = Some v ->
  is_valid_json v = Return (false, error) ->
  row_body fieldnames field_name r n g b out
  = (Return (g, b + 1), (out ++ diagnostic n v error)%list).
Proof.
  intros Hv Hj. unfold row_body, io_bind, lift, print, io_ret, diagnostic.
  rewrite Hv, Hj. cbn [negb]. now rewrite <- !app_assoc.
Qed.




(** The loop over [rows1 ++ rows2] is the loop over [rows1], and from where
    it ends the loop over [rows2]. *)
Lemma rows_loop_app (fieldnames : list string) (field_name : string)
  (rows1 rows2 : list (list string)) (failure : option exn)
  (n g b : nat) (out : list string) :
  rows_loop fieldnames field_name (rows1 ++ rows2)%list failure n g b out =
  match rows_loop fieldnames field_name rows1 None n g b out with
  | (Return (g1, b1), out1) =>
      rows_loop fieldnames field_name rows2 failure
        (n + data_rows rows1) g1 b1 out1
  | (Raise e, out1) => (Raise e, out1)
  | (Unmodelled w, out1) => (Unmodelled w, out1)
  end.
Proof.
  revert n g b out.
  induction rows1 as [|r rows1 IH]; intros n g b out.
  - cbn. now rewrite Nat.add_0_r.
  - destruct r as [|x r].
    + cbn [app rows_loop]. rewrite IH. reflexivity.
    + cbn [app rows_loop]. unfold io_bind at 1 2.
      destruct (row_body fieldnames field_name (x :: r) n g b out)
        as [[[g' b']|e|w] out']; try reflexivity.
      rewrite IH.
      replace (S n + data_rows rows1) with (n + data_rows ((x :: r) :: rows1))
        by (unfold data_rows; cbn; lia).
      reflexivity.
Qed.



(** C8.  When the file does not exist, and when the header has not the
    field, the run prints one line, the message of the error, and returns:
    no row is checked (whatever the rows are, nothing else is printed) and
    the line is no summary line. *)
Theorem configuration_errors_print_one_line (fs : string -> Csv.file)
  (csv_file field_name : string) (out : list string) :
  (forall e,
      fs csv_file = Csv.OpenFails e -> exn_cls e = FileNotFoundError ->
      validate_csv_json_field fs csv_file field_name out
      = (Return tt,
         (out ++ [("Error: File '" ++ csv_file ++ "' not found")%string])%list))
  /\ (forall fieldnames rows failure,
        fs csv_file = Csv.Opens (fieldnames :: rows) failure ->
        Csv.contains fieldnames field_name = false ->
        validate_csv_json_field fs csv_file field_name out
        = (Return tt,
           (out ++ [("Error: Field '" ++ field_name
                     ++ "' not found in CSV. Available fields: "
                     ++ PyStr.join ", " fieldnames)%string])%list))
  /\ (forall g b line,
        String.prefix "Error: " line = true -> line <> summary g b).
Proof.
  split; [|split].
  - intros [c m] Hfs Hc. simpl in Hc. subst c.
    unfold validate_csv_json_field, io_try. rewrite Hfs. reflexivity.
  - intros fieldnames rows failure Hfs Hf.
    unfold validate_csv_json_field, io_try. rewrite Hfs, Hf. reflexivity.
  - intros g b line H ->. discriminate H.
Qed.

Lemma configuration_errors_print_one_line_witness :
  let fs := fun p : string =>
    if String.eqb p "rows.csv"
    then Csv.Opens [["id"; "data"]; ["1"; "[1]"]] None
    else Csv.OpenFails (mkExn FileNotFoundError "No such file or directory") in
  validate_csv_json_field fs "none.csv" "data" []
  = (Return tt, ["Error: File 'none.csv' not found"])
  /\ validate_csv_json_field fs "rows.csv" "json" []
     = (Return tt,
        ["Error: Field 'json' not found in CSV. Available fields: id, data"]).
Proof.
  intros fs. split.
  - apply (proj1 (configuration_errors_print_one_line fs "none.csv" "data" [])
             (mkExn FileNotFoundError "No such file or directory"));
      reflexivity.
  - apply (proj1 (proj2 (configuration_errors_print_one_line
                           fs "rows.csv" "json" []))
             ["id"; "data"] [["1"; "[1]"]] None); reflexivity.
Defined.

(** C9.  A record that has fewer fields than the header, so that it does
    not reach the target field, gives [None] as the cell; [is_valid_json]
    answers [None] as it answers the empty string; and the loop counts the
    row as invalid and prints "Error: Empty string" for it. *)
Theorem short_row_is_an_empty_string (fieldnames : list string)
  (field_name : string) (r : list string) (rows : list (list string))
  (failure : option exn) (n g b : nat) (out : list string) :
  r <> [] ->
  In field_name (skipn (List.length r) fieldnames) ->
  Csv.get_item (Csv.make_row fieldnames r) field_name = Some None
  /\ is_valid_json None = is_valid_json (Some EmptyString)
  /\ is_valid_json None = Return (false, "Empty string")
  /\ rows_loop fieldnames field_name (r :: rows) failure n g b out
     = rows_loop fieldnames field_name rows failure (S n) g (b + 1)
         (out ++ diagnostic n None "Empty string")%list.
Proof.
  intros Hr Hin.
  pose proof (CsvFacts.short_row_cell fieldnames r field_name Hin) as Hv.
  repeat split; try assumption.
  destruct r as [|x r]; [now elim Hr|].
  cbn [rows_loop]. unfold io_bind at 1.
  now rewrite (row_body_invalid _ _ _ n g b out None "Empty string" Hv eq_refl).
Qed.

Lemma short_row_is_an_empty_string_witness :
  rows_loop ["id"; "data"] "data" [["7"]] None 2 0 0 []
  = (Return (0, 1), diagnostic 2 None "Empty string").
Proof.
  pose proof (short_row_is_an_empty_string ["id"; "data"] "data" ["7"] []
                None 2 0 0 []) as H.
  destruct H as (_ & _ & _ & H).
  - discriminate.
  - simpl. left. reflexivity.
  - rewrite H. reflexivity.
Defined.

(** ** Lists in Python's spelling *)

(** C3, as the specification states it: the list of its example, with the
    JSON spelling [true] among single-quoted strings, is not valid and has
    no normalised form; and the normalised form of the list with [True] is
    not the text without blanks the specification gives. *)
Lemma python_list_with_json_true_is_rejected :
  is_valid_json (Some "['a', 'b', 1, true]") =
    Return (false,
            "Preprocessing error: Failed to process string: "
            ++ "malformed node or string: Name true")
  /\ preprocess_json_string "['a', 'b', 1, true]" =
     Raise (wrapped (mkExn ValueError "malformed node or string: Name true"))
  /\ preprocess_json_string "['a', 'b', 1, True]" <>
     Return ("[" ++ Json.quoted "a" ++ "," ++ Json.quoted "b" ++ ",1,true]").
Proof. repeat split; vm_compute; try reflexivity. discriminate. Qed.

Module DecimalText.

Import PyStr Ast PyList.

Lemma span_stop (rest : string) :
  next_is is_digit rest = false -> span is_digit rest = (EmptyString, rest).
Proof. destruct rest as [|c r]; simpl; [reflexivity | now intros ->]. Qed.

Lemma uint_digits (d : Decimal.uint) (rest : string) :
  next_is is_digit rest = false ->
  span is_digit (NilEmpty.string_of_uint d ++ rest)
  = (NilEmpty.string_of_uint d, rest).
Proof.
  intros H. induction d; simpl; try (now apply span_stop);
    change (is_digit _) with true; cbn iota; now rewrite IHd.
Qed.

Lemma uint_value_acc (d : Decimal.uint) (acc : positive) :
  int_of_digits (Z.pos acc) (NilEmpty.string_of_uint d)
  = Z.pos (Pos.of_uint_acc d acc).
Proof.
  revert acc.
  induction d; intros acc;
    cbn [NilEmpty.string_of_uint int_of_digits Pos.of_uint_acc];
    try reflexivity; rewrite <- IHd; f_equal;
    match goal with
    | |- context [Z.of_nat (code ?c - 48)] =>
        let v := eval vm_compute in (Z.of_nat (code c - 48)) in
        change (Z.of_nat (code c - 48)) with v
    end; lia.
Qed.

Lemma uint_value (d : Decimal.uint) :
  int_of_digits 0 (NilEmpty.string_of_uint d) = Z.of_N (Pos.of_uint d).
Proof.
  induction d; cbn [NilEmpty.string_of_uint int_of_digits Pos.of_uint];
    try reflexivity; try exact IHd;
    match goal with
    | |- context [Z.of_nat (code ?c - 48)] =>
        let v := eval vm_compute in (10 * 0 + Z.of_nat (code c - 48))%Z in
        change (10 * 0 + Z.of_nat (code c - 48))%Z with v
    end; apply (uint_value_acc d).
Qed.

Lemma nzhead_no_zero (d u : Decimal.uint) : Decimal.nzhead d <> Decimal.D0 u.
Proof. induction d; simpl; try discriminate. exact IHd. Qed.

Lemma pos_no_leading_zero (p : positive) (u : Decimal.uint) :
  Pos.to_uint p <> Decimal.D0 u.
Proof.
  intros E.
  pose proof (DecimalPos.Unsigned.to_of (Pos.to_uint p)) as H.
  rewrite DecimalPos.Unsigned.of_to in H.
  change (N.to_uint (N.pos p)) with (Pos.to_uint p) in H.
  rewrite E in H. unfold Decimal.unorm in H. cbn [Decimal.nzhead] in H.
  destruct (Decimal.nzhead u) eqn:En;
    try (symmetry in H; rewrite <- En in H; exact (nzhead_no_zero u u H)).
  injection H as ->. exact (Unsigned.to_uint_nonzero p E).
Qed.

Lemma str_of_Z_numeral (z : Z) : (0 <= z)%Z -> numeral (str_of_Z z) z.
Proof.
  intros Hz. destruct z as [|p|p]; [constructor | | lia].
  unfold str_of_Z. cbn [Z.to_int NilZero.string_of_int].
  pose proof (Unsigned.to_uint_nonnil p) as Hnil.
  pose proof (pos_no_leading_zero p) as Hnz.
  pose proof (uint_value (Pos.to_uint p)) as Hv.
  rewrite DecimalPos.Unsigned.of_to in Hv.
  pose proof (uint_digits (Pos.to_uint p)) as Hd.
  unfold NilZero.string_of_uint.
  destruct (Pos.to_uint p) as [|u|u|u|u|u|u|u|u|u|u];
    try (now elim Hnil); try (now elim (Hnz u));
    cbn [NilEmpty.string_of_uint] in *;
    (apply numeral_pos; [reflexivity | discriminate | exact Hd | exact Hv]).
Qed.

Lemma str_of_Z_neg (p : positive) :
  str_of_Z (Z.neg p) = String "-" (str_of_Z (Z.pos p)).
Proof.
  unfold str_of_Z. cbn [Z.to_int NilZero.string_of_int]. reflexivity.
Qed.

End DecimalText.

(** ** The tokens of a list in Python's spelling *)

Module TokenFacts.

Import PyStr Ast PyList DecimalText.

Lemma tokens_punct (f : nat) (c : ascii) (r : string) :
  is_punct c = true ->
  tokens (S f) (String c r) = (ts <- tokens f r ;; Return (TOp c :: ts)).
Proof.
  intros H. unfold is_punct in H. cbn [existsb] in H.
  repeat match type of H with
         | (Ascii.eqb c ?d || _) = true =>
             destruct (Ascii.eqb_spec c d) as [->|_];
             [reflexivity | cbn [orb] in H]
         end.
  discriminate.
Qed.

Lemma tokens_quote (f : nat) (r : string) :
  tokens (S f) (String "'" r) =
  if starts_triple "'" r then Unmodelled "triple-quoted string"
  else '(body, rest) <- scan_string "'" Plain r ;;
       ts <- tokens f rest ;;
       Return (TStr body :: ts).
Proof. reflexivity. Qed.

Lemma tokens_name (f : nat) (id rest : string) :
  In id ["True"; "False"; "None"] -> delimited rest ->
  tokens (S f) (id ++ rest) = (ts <- tokens f rest ;; Return (TName id :: ts)).
Proof.
  intros Hid (c & r & -> & Hc).
  destruct Hid as [<-|[<-|[<-|[]]]]; destruct Hc as [->| ->]; reflexivity.
Qed.

Lemma digit_is_no_blank (c : ascii) :
  is_digit c = true -> (Ascii.eqb c " " || (code c =? 9)%nat) = false.
Proof.
  unfold is_digit. intros H.
  destruct (Ascii.eqb_spec c " ") as [->|_]; [discriminate H|].
  destruct (Nat.eqb_spec (code c) 9) as [E|_]; [|reflexivity].
  rewrite E in H. discriminate H.
Qed.

Lemma delimited_next (p : ascii -> bool) (rest : string) :
  delimited rest -> p ","%char = false -> p "]"%char = false ->
  next_is p rest = false.
Proof. intros (c & r & -> & [->| ->]) H1 H2; assumption. Qed.

Lemma tokens_numeral (f : nat) (ds rest : string) (z : Z) :
  numeral ds z ->
  (Z.of_nat (String.length ds) <=? max_digits)%Z = true ->
  delimited rest ->
  tokens (S f) (ds ++ rest) = (ts <- tokens f rest ;; Return (TInt z :: ts)).
Proof.
  intros Hn Hs Hd. destruct Hn as [|c ds p Hc Hz Hspan Hv].
  - destruct Hd as (c & r & -> & [->| ->]); reflexivity.
  - cbn [append tokens].
    rewrite (digit_is_no_blank c Hc), Hc.
    change (String c (ds ++ rest)) with (String c ds ++ rest).
    rewrite (Hspan rest) by (now apply delimited_next).
    rewrite (delimited_next _ rest Hd eq_refl eq_refl).
    replace (max_digits <? Z.of_nat (String.length (String c ds)))%Z
      with false by (symmetry; apply Z.ltb_ge; now apply Z.leb_le).
    replace (Ascii.eqb c "0") with false
      by (symmetry; now apply Ascii.eqb_neq).
    cbn [andb]. now rewrite Hv.
Qed.

Lemma plain_step_plain (c : ascii) :
  plain_char c = true ->
  plain_step "'" c = Return (String c EmptyString, Some Plain).
Proof.
  unfold plain_char, plain_step. intros H.
  destruct (Ascii.eqb_spec c "'") as [->|_]; [discriminate H|].
  destruct (Ascii.eqb_spec c "\") as [->|_]; [discriminate H|].
  destruct (Nat.eqb_spec (code c) 10) as [E|_];
    [rewrite E in H; discriminate H|].
  destruct (Nat.eqb_spec (code c) 13) as [E|_];
    [rewrite E in H; discriminate H|].
  destruct (Nat.eqb_spec (code c) 0) as [E|_];
    [rewrite E in H; discriminate H|].
  reflexivity.
Qed.

(** A plain text up to the closing quote is the value of the literal. *)
Lemma scan_plain (s rest : string) :
  plain s = true ->
  scan_string "'" Plain (s ++ String "'" rest) = Return (s, rest).
Proof.
  induction s as [|c s IH]; intros H.
  - reflexivity.
  - cbn [plain] in H. apply andb_prop in H. destruct H as [Hc Hs].
    cbn [append scan_string step]. rewrite (plain_step_plain c Hc).
    cbn [bind]. rewrite (IH Hs). reflexivity.
Qed.

Lemma plain_no_triple (s rest : string) :
  plain s = true -> delimited rest ->
  starts_triple "'" (s ++ String "'" rest) = false.
Proof.
  intros H (c & r & -> & Hc). destruct s as [|a s].
  - destruct Hc as [->| ->]; reflexivity.
  - cbn [plain] in H. apply andb_prop in H. destruct H as [Ha _].
    cbn [append starts_triple].
    destruct (s ++ String "'" (String c r)); [reflexivity|].
    destruct (Ascii.eqb_spec a "'") as [->|_]; [discriminate Ha | reflexivity].
Qed.

Lemma tokens_str (f : nat) (s rest : string) :
  plain s = true -> delimited rest ->
  tokens (S f) ("'" ++ s ++ "'" ++ rest)
  = (ts <- tokens f rest ;; Return (TStr s :: ts)).
Proof.
  intros Hs Hd.
  change ("'" ++ s ++ "'" ++ rest) with (String "'" (s ++ String "'" rest)).
  rewrite tokens_quote, (plain_no_triple s rest Hs Hd), (scan_plain s rest Hs).
  reflexivity.
Qed.

Lemma numeral_length (ds : string) (z : Z) :
  numeral ds z -> 1 <= String.length ds.
Proof. intros [|]; cbn; lia. Qed.

Lemma app_assoc_str (a b c : string) : (a ++ b) ++ c = a ++ b ++ c.
Proof. induction a as [|x a IH]; cbn; [reflexivity | now rewrite IH]. Qed.

(** The tokens of an item, before what the rest of the text gives. *)
Lemma tokens_item (i : item) (rest : string) (ts : list token) :
  item_ok i = true -> delimited rest ->
  (forall f, String.length rest < f -> tokens f rest = Return ts) ->
  forall f, String.length (repr i ++ rest) < f ->
            tokens f (repr i ++ rest) = Return (item_tokens i ++ ts)%list.
Proof.
  intros Hok Hd Hrest f Hf.
  rewrite PyStrFacts.length_app in Hf.
  destruct i as [s|z|[|]|]; cbn [repr item_tokens item_ok] in *.
  - destruct f as [|f]; [lia|].
    rewrite !app_assoc_str.
    rewrite (tokens_str f s rest Hok Hd).
    rewrite Hrest; [reflexivity|].
    rewrite !PyStrFacts.length_app in Hf. cbn in Hf. lia.
  - destruct (Z.ltb_spec z 0) as [Hz|Hz].
    + destruct z as [|p|p]; try lia.
      rewrite str_of_Z_neg in *. cbn [append String.length] in *.
      destruct f as [|f]; [lia|].
      rewrite tokens_punct by reflexivity.
      pose proof (str_of_Z_numeral (Z.pos p) ltac:(lia)) as Hn.
      pose proof (numeral_length _ _ Hn) as Hl.
      destruct f as [|f]; [lia|].
      rewrite (tokens_numeral f _ rest (Z.pos p) Hn Hok Hd).
      rewrite Hrest by lia. reflexivity.
    + pose proof (str_of_Z_numeral z Hz) as Hn.
      pose proof (numeral_length _ _ Hn) as Hl.
      unfold small in Hok. rewrite Z.abs_eq in Hok by lia.
      destruct f as [|f]; [lia|].
      rewrite (tokens_numeral f _ rest z Hn Hok Hd).
      rewrite Hrest by lia. reflexivity.
  - destruct f as [|f]; [lia|].
    rewrite (tokens_name f "True" rest) by (simpl; auto).
    rewrite Hrest by (cbn in Hf; lia). reflexivity.
  - destruct f as [|f]; [lia|].
    rewrite (tokens_name f "False" rest) by (simpl; auto).
    rewrite Hrest by (cbn in Hf; lia). reflexivity.
  - destruct f as [|f]; [lia|].
    rewrite (tokens_name f "None" rest) by (simpl; auto).
    rewrite Hrest by (cbn in Hf; lia). reflexivity.
Qed.

Lemma tokens_close (f : nat) :
  1 < f -> tokens f "]" = Return [TOp "]"].
Proof. intros H. destruct f as [|[|f]]; try lia. reflexivity. Qed.

Lemma tail_text_delimited (g : item -> string) (l : list item) :
  delimited (match l with
             | [] => "]"
             | _ :: _ => ", " ++ tail_text g l
             end).
Proof.
  destruct l; [exists "]"%char, EmptyString | eexists ","%char, _];
    (split; [reflexivity | auto]).
Qed.

Lemma tokens_tail (l : list item) :
  forallb item_ok l = true ->
  forall f, String.length (tail_text repr l) < f ->
            tokens f (tail_text repr l) = Return (tail_tokens l).
Proof.
  induction l as [|x l IH]; intros Hok f Hf.
  - now apply tokens_close.
  - cbn [forallb] in Hok. apply andb_prop in Hok. destruct Hok as [Hx Hl].
    cbn [tail_text tail_tokens].
    apply (tokens_item x _ _ Hx (tail_text_delimited repr l)); [|exact Hf].
    destruct l as [|y l]; [apply tokens_close|].
    intros f' Hf'. cbn [append String.length] in Hf'.
    destruct f' as [|[|f']]; try lia.
    cbn [append]. rewrite tokens_punct by reflexivity.
    change (tokens (S f') (String " " (tail_text repr (y :: l))))
      with (tokens f' (tail_text repr (y :: l))).
    rewrite (IH Hl) by lia. reflexivity.
Qed.

(** The text of a list is its opening bracket and its items. *)
Lemma list_text (g : item -> string) (l : list item) :
  "[" ++ join ", " (map g l) ++ "]" = String "[" (tail_text g l).
Proof.
  cbn [append]. f_equal.
  induction l as [|x l IH]; [reflexivity|].
  cbn [map join tail_text]. destruct l as [|y l]; [reflexivity|].
  rewrite <- IH. cbn [map]. now rewrite !app_assoc_str.
Qed.

Lemma tokens_python_list (l : list item) :
  forallb item_ok l = true ->
  tokens (S (String.length (python_list l))) (python_list l)
  = Return (TOp "[" :: tail_tokens l).
Proof.
  intros Hok. unfold python_list. rewrite list_text.
  rewrite tokens_punct by reflexivity.
  rewrite (tokens_tail l Hok) by (cbn; lia). reflexivity.
Qed.

End TokenFacts.

(** ** The tree of a list in Python's spelling *)

Module ParseFacts.

Import PyStr Ast PyList.

Lemma after_atom_closes (e : expr) (rest : list token) :
  closes rest -> after_atom e rest = Return (e, rest).
Proof. intros (c & r & -> & [->| ->]); reflexivity. Qed.

Lemma join_strings_closes (s : string) (rest : list token) :
  closes rest -> join_strings s rest = (s, rest).
Proof. intros (c & r & -> & _). reflexivity. Qed.

Lemma parse_item (i : item) (rest : list token) (f d : nat) :
  closes rest -> 2 <= f -> 1 <= d ->
  parse_expr f d (item_tokens i ++ rest)%list = Return (item_expr i, rest).
Proof.
  intros Hc Hf Hd.
  destruct f as [|[|f]]; try lia. destruct d as [|d]; try lia.
  destruct i as [s|z|[|]|]; cbn [item_tokens item_expr].
  - cbn [app parse_expr]. rewrite (join_strings_closes s rest Hc).
    now apply after_atom_closes.
  - destruct (z <? 0)%Z.
    + cbn [app parse_expr existsb]. cbn [Ascii.eqb orb].
      change (Ascii.eqb "-" "+") with false.
      change (Ascii.eqb "-" "-") with true. cbn iota.
      rewrite (after_atom_closes _ rest Hc). reflexivity.
    + cbn [app parse_expr]. now apply after_atom_closes.
  - cbn [app parse_expr]. now apply after_atom_closes.
  - cbn [app parse_expr]. now apply after_atom_closes.
  - cbn [app parse_expr]. now apply after_atom_closes.
Qed.

Lemma tail_tokens_closes (l : list item) :
  closes (match l with
          | [] => [TOp "]"]
          | _ :: _ => TOp "," :: tail_tokens l
          end).
Proof.
  destruct l; [exists "]"%char, [] | eexists ","%char, _];
    (split; [reflexivity | auto]).
Qed.

Lemma item_is_no_closer (i : item) (rest : list token) :
  at_close (Some "]"%char) (item_tokens i ++ rest)%list = None.
Proof.
  destruct i as [s|z|[|]|]; cbn [item_tokens]; try reflexivity.
  destruct (z <? 0)%Z; reflexivity.
Qed.

Lemma item_tokens_length (i : item) : 1 <= List.length (item_tokens i).
Proof.
  destruct i as [s|z|[|]|]; cbn [item_tokens]; try (cbn; lia).
  destruct (z <? 0)%Z; cbn; lia.
Qed.

Lemma parse_tail (l : list item) (d : nat) :
  1 <= d ->
  forall f, 2 * List.length (tail_tokens l) < f ->
  exists comma,
    parse_items f d (Some "]"%char) (tail_tokens l)
    = Return (map item_expr l, comma, []).
Proof.
  intros Hd. induction l as [|x l IH]; intros f Hf.
  - destruct f as [|f]; [lia|]. exists false. reflexivity.
  - cbn [tail_tokens] in *. rewrite length_app in Hf.
    pose proof (item_tokens_length x) as Hx.
    destruct f as [|f]; [lia|].
    cbn [parse_items]. rewrite item_is_no_closer.
    rewrite (parse_item x _ f d (tail_tokens_closes l)) by lia.
    cbn [bind]. destruct l as [|y l].
    + exists false. reflexivity.
    + destruct (IH f) as [comma E]; [cbn [List.length] in Hf; lia|].
      exists true. cbn [at_close expect].
      change (Ascii.eqb "," "]") with false.
      change (Ascii.eqb "," ",") with true. cbn iota.
      cbn [bind]. rewrite E. reflexivity.
Qed.

Lemma parse_python_list (l : list item) :
  forallb item_ok l = true ->
  parse (python_list l) = Return (EList (map item_expr l)).
Proof.
  intros Hok. unfold parse.
  rewrite (TokenFacts.tokens_python_list l Hok).
  unfold python_list. cbn [append next_is]. cbn [bind].
  replace (2 * List.length (TOp "[" :: tail_tokens l) + 2)
    with (S (S (2 * List.length (tail_tokens l) + 2)))
    by (cbn [List.length]; lia).
  destruct (parse_tail l 19 ltac:(lia)
              (2 * List.length (tail_tokens l) + 2) ltac:(lia)) as [comma E].
  cbn [parse_items at_close parse_expr existsb].
  change (Ascii.eqb "[" "+") with false.
  change (Ascii.eqb "[" "-") with false.
  change (Ascii.eqb "[" "[") with true.
  cbn [orb]. unfold max_depth. cbn iota. rewrite E. reflexivity.
Qed.

End ParseFacts.

(** ** The value of a list and its JSON text *)

Module ValueFacts.

Import PyStr Ast PyList.

Lemma convert_item (i : item) : convert (item_expr i) = Return (value i).
Proof.
  destruct i as [s|z|b|]; cbn [item_expr value]; try reflexivity.
  destruct (z <? 0)%Z; [|reflexivity].
  cbn [convert]. now rewrite Z.opp_involutive.
Qed.

Lemma literal_eval_python_list (l : list item) :
  forallb item_ok l = true ->
  literal_eval (python_list l) = Return (PList (map value l)).
Proof.
  intros Hok. unfold literal_eval.
  rewrite (ParseFacts.parse_python_list l Hok). cbn [bind convert].
  induction l as [|x l IH]; [reflexivity|].
  cbn [forallb] in Hok. apply andb_prop in Hok.
  cbn [map]. rewrite convert_item. cbn [bind].
  specialize (IH (proj2 Hok)).
  match type of IH with
  | bind ?go _ = _ => destruct go as [vs|e|w]; try discriminate
  end.
  cbn [bind] in *. now injection IH as ->.
Qed.

Lemma escape_plain (s : string) : plain s = true -> Json.escape s = s.
Proof.
  induction s as [|c s IH]; [reflexivity|].
  cbn [plain Json.escape]. intros H. apply andb_prop in H.
  destruct H as [Hc Hs]. rewrite (IH Hs).
  enough (Json.escape_char c = String c EmptyString) as -> by reflexivity.
  revert Hc. unfold plain_char, Json.escape_char.
  intros H.
  destruct (Ascii.eqb_spec c Json.dq) as [->|_]; [discriminate H|].
  destruct (Ascii.eqb_spec c "\") as [->|_]; [discriminate H|].
  repeat match goal with
         | |- context [(code c =? ?n)%nat] =>
             destruct (Nat.eqb_spec (code c) n) as [E|_];
             [rewrite E in H; discriminate H|]
         end.
  apply andb_prop in H. destruct H as [H _].
  apply andb_prop in H. destruct H as [H _].
  apply andb_prop in H. destruct H as [H _].
  apply andb_prop in H. destruct H as [H1 H2].
  apply Nat.leb_le in H1, H2.
  destruct (Nat.ltb_spec (code c) 32); [lia|].
  destruct (Nat.ltb_spec 126 (code c)); [lia|]. reflexivity.
Qed.

Lemma dumps_item (i : item) :
  item_ok i = true -> Json.dumps (value i) = Return (json i).
Proof.
  destruct i as [s|z|[|]|]; cbn [value json item_ok]; try reflexivity.
  intros H. cbn [Json.dumps]. unfold Json.encode_str.
  now rewrite (escape_plain s H).
Qed.

Lemma dumps_python_list (l : list item) :
  forallb item_ok l = true ->
  Json.dumps (PList (map value l)) = Return (json_array l).
Proof.
  intros Hok. cbn [Json.dumps]. unfold json_array.
  enough ((fix go (l : list pyobj) : pyresult (list string) :=
             match l with
             | [] => Return []
             | x :: l' =>
                 a <- Json.dumps x ;; r <- go l' ;; Return (a :: r)
             end) (map value l) = Return (map json l)) as -> by reflexivity.
  induction l as [|x l IH]; [reflexivity|].
  cbn [forallb] in Hok. apply andb_prop in Hok. destruct Hok as [Hx Hl].
  cbn [map]. rewrite (dumps_item x Hx). cbn [bind].
  rewrite (IH Hl). reflexivity.
Qed.

End ValueFacts.

(** ** Reading the JSON text back *)

Module LoadsFacts.

Import PyStr PyList DecimalText.
Import Json.

Lemma scanstring_plain (s rest : string) :
  plain s = true ->
  scanstring SPlain (s ++ String dq rest) = Return (s, rest).
Proof.
  induction s as [|c s IH]; intros H.
  - reflexivity.
  - cbn [plain] in H. apply andb_prop in H. destruct H as [Hc Hs].
    cbn [append scanstring]. rewrite (IH Hs). cbn [bind].
    revert Hc. unfold plain_char. intros H.
    destruct (Ascii.eqb_spec c dq) as [->|_]; [discriminate H|].
    destruct (Ascii.eqb_spec c "\") as [->|_]; [discriminate H|].
    destruct (Nat.ltb_spec (code c) 32) as [Hlt|_]; [|reflexivity].
    apply andb_prop in H. destruct H as [H _].
    apply andb_prop in H. destruct H as [H _].
    apply andb_prop in H. destruct H as [H _].
    apply andb_prop in H. destruct H as [H _].
    apply Nat.leb_le in H. lia.
Qed.

Lemma float_follows_delimited (rest : string) :
  delimited rest -> float_follows rest = false.
Proof. intros (c & r & -> & [->| ->]); reflexivity. Qed.

Lemma number_numeral (neg : bool) (ds rest : string) (z : Z) :
  numeral ds z ->
  (Z.of_nat (String.length ds) <=? Ast.max_digits)%Z = true ->
  delimited rest ->
  number neg (ds ++ rest) = Return (PInt (if neg then - z else z), rest).
Proof.
  intros Hn Hs Hd. unfold number.
  assert (int_part (ds ++ rest) = Some (ds, rest)) as ->.
  { destruct Hn as [|c ds p Hc Hz Hspan Hv]; [reflexivity|].
    cbn [append int_part].
    replace (Ascii.eqb c "0") with false
      by (symmetry; now apply Ascii.eqb_neq).
    rewrite Hc.
    change (String c (ds ++ rest)) with (String c ds ++ rest).
    rewrite (Hspan rest); [reflexivity|].
    now apply TokenFacts.delimited_next. }
  rewrite (float_follows_delimited rest Hd).
  replace (Ast.max_digits <? Z.of_nat (String.length ds))%Z
    with false by (symmetry; apply Z.ltb_ge; now apply Z.leb_le).
  destruct Hn as [|c ds p Hc Hz Hspan Hv]; [now destruct neg|].
  now rewrite Hv.
Qed.

Lemma digit_leads_number (f d : nat) (c : ascii) (r : string) :
  Ast.is_digit c = true ->
  scan_once (S f) d (String c r) = number false (String c r).
Proof.
  unfold Ast.is_digit. intros H. cbn [scan_once].
  repeat match goal with
         | |- context [Ascii.eqb c ?x] =>
             destruct (Ascii.eqb_spec c x) as [->|_]; [discriminate H|]
         end.
  unfold Ast.is_digit. now rewrite H.
Qed.

Lemma numeral_leads_number (f d : nat) (ds rest : string) (z : Z) :
  numeral ds z ->
  scan_once (S f) d (ds ++ rest) = number false (ds ++ rest).
Proof.
  intros [|c ds' p Hc _ _ _]; [reflexivity|].
  now apply digit_leads_number.
Qed.

(** One item of the array, before what follows it. *)
Lemma scan_item (i : item) (rest : string) (f d : nat) :
  item_ok i = true -> delimited rest -> 1 <= f ->
  scan_once f d (json i ++ rest) = Return (value i, rest).
Proof.
  intros Hok Hd Hf. destruct f as [|f]; [lia|].
  destruct i as [s|z|[|]|]; cbn [json value item_ok] in *.
  - unfold quoted. cbn [append]. rewrite TokenFacts.app_assoc_str.
    cbn [append].
    change (scan_once (S f) d (String dq (s ++ String dq rest)))
      with ('(v, r) <- scanstring SPlain (s ++ String dq rest) ;;
            Return (PStr v, r)).
    now rewrite (scanstring_plain s rest Hok).
  - unfold small in Hok. destruct z as [|p|p].
    + rewrite (numeral_leads_number f d _ rest 0
                 (str_of_Z_numeral 0 ltac:(lia))).
      now rewrite (number_numeral false _ rest 0
                     (str_of_Z_numeral 0 ltac:(lia)) Hok Hd).
    + pose proof (str_of_Z_numeral (Z.pos p) ltac:(lia)) as Hn.
      rewrite (numeral_leads_number f d _ rest _ Hn).
      now rewrite (number_numeral false _ rest _ Hn Hok Hd).
    + pose proof (str_of_Z_numeral (Z.pos p) ltac:(lia)) as Hn.
      rewrite str_of_Z_neg. cbn [append].
      change (scan_once (S f) d (String "-" (str_of_Z (Z.pos p) ++ rest)))
        with (number true (str_of_Z (Z.pos p) ++ rest)).
      now rewrite (number_numeral true _ rest _ Hn Hok Hd).
  - destruct Hd as (c & r & -> & _). reflexivity.
  - destruct Hd as (c & r & -> & _). reflexivity.
  - destruct Hd as (c & r & -> & _). reflexivity.
Qed.

(** An item starts with a character that is neither white space nor the
    closing bracket. *)
Lemma json_lead (i : item) :
  exists c r, json i = String c r
              /\ is_ws c = false /\ Ascii.eqb c "]" = false.
Proof.
  destruct i as [s|z|[|]|]; cbn [json];
    try (eexists _, _; split; [reflexivity | split; reflexivity]).
  destruct z as [|p|p].
  - eexists _, _; split; [reflexivity | split; reflexivity].
  - pose proof (str_of_Z_numeral (Z.pos p) ltac:(lia)) as Hn.
    remember (str_of_Z (Z.pos p)) as t eqn:Et. clear Et.
    destruct Hn as [|c ds q Hc _ _ _].
    + eexists _, _; split; [reflexivity | split; reflexivity].
    + exists c, ds. split; [reflexivity|].
      unfold Ast.is_digit in Hc. unfold is_ws. split.
      * repeat match goal with
               | |- context [(code c =? ?n)%nat] =>
                   destruct (Nat.eqb_spec (code c) n) as [E|_];
                   [rewrite E in Hc; discriminate Hc|]
               end.
        reflexivity.
      * destruct (Ascii.eqb_spec c "]") as [->|_];
          [discriminate Hc | reflexivity].
  - rewrite str_of_Z_neg.
    eexists _, _; split; [reflexivity | split; reflexivity].
Qed.

Lemma skip_ws_tail (x : item) (l : list item) :
  skip_ws (tail_text json (x :: l)) = tail_text json (x :: l).
Proof.
  cbn [tail_text]. destruct (json_lead x) as (c & r & -> & Hw & _).
  cbn [append skip_ws]. now rewrite Hw.
Qed.

(** The members of the array, from the first one on. *)
Lemma array_tail (x : item) (l : list item) :
  forallb item_ok (x :: l) = true ->
  forall f d, String.length (tail_text json (x :: l)) < f ->
    array_items f d (tail_text json (x :: l))
    = Return (map value (x :: l), EmptyString).
Proof.
  revert x. induction l as [|y l IH]; intros x Hok f d Hf;
    cbn [forallb] in Hok; apply andb_prop in Hok; destruct Hok as [Hx Hl];
    (destruct f as [|f]; [lia|]);
    cbn [array_items].
  - cbn [tail_text] in *. rewrite PyStrFacts.length_app in Hf. cbn in Hf.
    rewrite (scan_item x "]" f d Hx (TokenFacts.tail_text_delimited json []))
      by lia.
    reflexivity.
  - change (tail_text json (x :: y :: l))
      with (json x ++ ", " ++ tail_text json (y :: l)) in *.
    rewrite !PyStrFacts.length_app in Hf. cbn [String.length] in Hf.
    rewrite (scan_item x _ f d Hx
               (TokenFacts.tail_text_delimited json (y :: l))) by lia.
    cbn [bind append].
    change (skip_ws (String "," (String " " (tail_text json (y :: l)))))
      with (String "," (String " " (tail_text json (y :: l)))).
    cbn iota.
    change (Ascii.eqb "," "]") with false.
    change (Ascii.eqb "," ",") with true. cbn iota.
    change (skip_ws (String " " (tail_text json (y :: l))))
      with (skip_ws (tail_text json (y :: l))).
    rewrite skip_ws_tail.
    rewrite (IH y Hl f d) by lia.
    reflexivity.
Qed.

Lemma loads_json_array (l : list item) :
  forallb item_ok l = true ->
  loads (json_array l) = Return (PList (map value l)).
Proof.
  intros Hok. unfold loads, json_array. rewrite TokenFacts.list_text.
  cbn [skip_ws]. change (is_ws "[") with false. cbn iota.
  cbn [String.length]. rewrite Nat.mul_succ_r, (Nat.add_comm _ 2).
  cbn [Nat.add scan_once].
  change (Ascii.eqb "[" dq) with false.
  change (Ascii.eqb "[" "{") with false.
  change (Ascii.eqb "[" "[") with true. cbn iota.
  unfold Ast.max_depth. cbn iota.
  destruct l as [|x l]; [reflexivity|].
  rewrite skip_ws_tail.
  rewrite (array_tail x l Hok) by lia.
  assert (exists c r, tail_text json (x :: l) = String c r
                      /\ Ascii.eqb c "]" = false) as (c & r & -> & ->).
  { cbn [tail_text]. destruct (json_lead x) as (c & r & -> & _ & Hc).
    cbn [append]. eauto. }
  reflexivity.
Qed.

End LoadsFacts.

(** ** The validator on a list in Python's spelling *)

Lemma strip_python_list (l : list PyList.item) :
  PyStr.strip (PyList.python_list l) = PyList.python_list l.
Proof.
  unfold PyStr.strip, PyList.python_list.
  change (PyStr.lstrip ("[" ++ PyStr.join ", " (map PyList.repr l) ++ "]"))
    with ("[" ++ PyStr.join ", " (map PyList.repr l) ++ "]").
  rewrite <- TokenFacts.app_assoc_str.
  now apply PyStrFacts.rstrip_ends_black.
Qed.

(** C3, amended.  A list as [repr] writes it, of single-quoted strings of
    plain characters, integers of at most 4300 digits, [True], [False] and
    [None], such as ['a', 'b', 1, True], is valid, and its normalised form
    is the JSON array of the same items with a comma and a blank between
    two of them, ["a", "b", 1, true]. *)
Theorem python_list_is_valid (l : list PyList.item) :
  forallb PyList.item_ok l = true ->
  preprocess_json_string (PyList.python_list l)
  = Return (PyList.json_array l)
  /\ is_valid_json (Some (PyList.python_list l)) = Return (true, EmptyString).
Proof.
  intros Hok.
  assert (preprocess_json_string (PyList.python_list l)
          = Return (PyList.json_array l)) as Hp.
  { unfold preprocess_json_string, preprocess_json_string_with. cbn zeta.
    rewrite strip_python_list.
    change (PyStr.startswith (PyList.python_list l) "'") with false.
    cbn [andb].
    rewrite (ValueFacts.literal_eval_python_list l Hok). cbn [bind].
    rewrite (ValueFacts.dumps_python_list l Hok). reflexivity. }
  split; [exact Hp|].
  unfold is_valid_json, is_valid_json_with.
  change (PyList.python_list l)
    with (String "[" (PyStr.join ", " (map PyList.repr l) ++ "]")) at 1.
  cbv beta iota.
  change (String "[" (PyStr.join ", " (map PyList.repr l) ++ "]"))
    with (PyList.python_list l).
  fold preprocess_json_string. rewrite Hp. cbn [bind].
  rewrite (LoadsFacts.loads_json_array l Hok). reflexivity.
Qed.

Lemma python_list_is_valid_witness :
  preprocess_json_string "['a', 'b', 1, True]"
  = Return ("[" ++ Json.quoted "a" ++ ", " ++ Json.quoted "b" ++ ", 1, true]")
  /\ is_valid_json (Some "['a', 'b', 1, True]") = Return (true, EmptyString).
Proof.
  apply (python_list_is_valid
           [PyList.IStr "a"; PyList.IStr "b"; PyList.IInt 1;
            PyList.IBool true]).
  vm_compute. reflexivity.
Defined.

(* ===================================================================== *)
(** * More of the behaviour of [main.py]                                   *)
(* ===================================================================== *)

(** ** The summary line *)

Module SummaryFacts.

Import PyStr Ast PyList.







End SummaryFacts.



(** ** What [is_valid_json] answers and what it lets through *)

Lemma prefix_app (s t : string) : String.prefix s (s ++ t) = true.
Proof.
  induction s as [|c s IH]; cbn.
  - now destruct t.
  - destruct (Ascii.ascii_dec c c) as [_|H]; [exact IH | now elim H].
Qed.

Section ValidatorOutcomes.

Variable literal_eval : string -> pyresult pyobj.
Variable dumps : pyobj -> pyresult string.
Variable loads : string -> pyresult pyobj.

Lemma preprocess_literal_text (s : string) :
  preprocess_json_string_with literal_eval dumps s =
  try_except (python_obj <- literal_eval (literal_text s) ;; dumps python_obj)
    [Except [ValueError; SyntaxError]
       (fun e => raise ValueError ("Failed to process string: " ++ exn_str e))].
Proof. reflexivity. Qed.

(** X1.  The answer of [is_valid_json] is [True] exactly when its message is
    empty; the message of a [False] is "Empty string" or starts with
    "Preprocessing error: ". *)
Theorem valid_iff_empty_message (v : option string) (b : bool) (msg : string) :
  is_valid_json_with literal_eval dumps loads v = Return (b, msg) ->
  (b = true <-> msg = EmptyString)
  /\ (b = false ->
      msg = "Empty string"
      \/ String.prefix "Preprocessing error: " msg = true).
Proof.
  intros H. apply validate_messages in H.
  destruct H as [[-> ->]|[[-> ->]|[-> [e ->]]]].
  - split; [tauto | discriminate].
  - split; [split; discriminate | now left].
  - split; [split; discriminate | right; apply prefix_app].
Qed.


(** X2.  An exception of the normalisation that is neither a [ValueError]
    nor a [SyntaxError] (the [TypeError] of an unhashable key, of a value
    [json.dumps] cannot write) is not caught: [is_valid_json] raises it
    instead of answering. *)
Theorem other_exceptions_escape (s : string) (e : exn) :
  s <> EmptyString ->
  (python_obj <- literal_eval (literal_text s) ;; dumps python_obj) = Raise e ->
  isinstance e ValueError = false ->
  isinstance e SyntaxError = false ->
  preprocess_json_string_with literal_eval dumps s = Raise e
  /\ is_valid_json_with literal_eval dumps loads (Some s) = Raise e.
Proof.
  intros Hs Hb Hv Hx.
  assert (preprocess_json_string_with literal_eval dumps s = Raise e) as Hp.
  { rewrite preprocess_literal_text, Hb.
    cbn [try_except dispatch h_classes existsb]. now rewrite Hv, Hx. }
  split; [exact Hp|].
  unfold is_valid_json_with. destruct s as [|c s]; [now elim Hs|].
  rewrite Hp. cbn [bind try_except dispatch h_classes existsb].
  rewrite Hv. cbn [orb].
  destruct (isinstance e JSONDecodeError) eqn:Hj; [|reflexivity].
  exfalso. destruct e as [[] m]; discriminate.
Qed.

End ValidatorOutcomes.

Lemma valid_iff_empty_message_witness :
  let msg := "Preprocessing error: Failed to process string: "
             ++ "malformed node or string: Name oops" in
  (false = true <-> msg = EmptyString)
  /\ (false = false ->
      msg = "Empty string"
      \/ String.prefix "Preprocessing error: " msg = true).
Proof.
  intros msg.
  apply (valid_iff_empty_message Ast.literal_eval Json.dumps Json.loads
           (Some "oops") false msg).
  vm_compute. reflexivity.
Defined.

Lemma other_exceptions_escape_witness :
  preprocess_json_string "{1, 2}" =
    Raise (mkExn TypeError "Object of type set is not JSON serializable")
  /\ is_valid_json (Some "{1, 2}") =
     Raise (mkExn TypeError "Object of type set is not JSON serializable").
Proof.
  apply (other_exceptions_escape Ast.literal_eval Json.dumps Json.loads
           "{1, 2}"
           (mkExn TypeError "Object of type set is not JSON serializable")).
  - discriminate.
  - vm_compute. reflexivity.
  - reflexivity.
  - reflexivity.
Defined.

(** ** White space and quotes around the cell *)

Module StripFacts.

Import PyStr.

Lemma rstrip_cons (c : ascii) (s : string) :
  rstrip (String c s) =
  match rstrip s with
  | EmptyString => if isspace c then EmptyString else String c EmptyString
  | r => String c r
  end.
Proof. reflexivity. Qed.

Lemma rstrip_idempotent (s : string) : rstrip (rstrip s) = rstrip s.
Proof.
  induction s as [|c s IH]; [reflexivity|].
  rewrite rstrip_cons. destruct (rstrip s) as [|d r] eqn:E.
  - destruct (isspace c) eqn:Hc; [reflexivity|].
    rewrite rstrip_cons. cbn [rstrip]. now rewrite Hc.
  - rewrite rstrip_cons, IH. reflexivity.
Qed.

(** What is left of white space on the left is empty or starts with a
    character that is no white space. *)
Lemma lstrip_head (s : string) :
  lstrip s = EmptyString
  \/ exists c r, lstrip s = String c r /\ isspace c = false.
Proof.
  induction s as [|c s IH]; [now left|].
  cbn [lstrip]. destruct (isspace c) eqn:Hc; [exact IH|].
  right. now exists c, s.
Qed.

Lemma rstrip_keeps_head (c : ascii) (s : string) :
  isspace c = false -> exists r, rstrip (String c s) = String c r.
Proof.
  intros Hc. rewrite rstrip_cons. destruct (rstrip s) as [|d r].
  - rewrite Hc. now exists EmptyString.
  - now exists (String d r).
Qed.

Lemma strip_idempotent (s : string) : strip (strip s) = strip s.
Proof.
  unfold strip. destruct (lstrip_head s) as [->|(c & r & -> & Hc)].
  - reflexivity.
  - destruct (rstrip_keeps_head c r Hc) as [r' E]. rewrite E.
    cbn [lstrip]. rewrite Hc. rewrite <- E. apply rstrip_idempotent.
Qed.

Lemma strip_empty : strip EmptyString = EmptyString.
Proof. reflexivity. Qed.

Lemma literal_text_strip (s : string) :
  literal_text (strip s) = literal_text s.
Proof. unfold literal_text. now rewrite strip_idempotent. Qed.

Lemma literal_text_blank (s : string) :
  strip s = EmptyString -> literal_text s = EmptyString.
Proof. unfold literal_text. now intros ->. Qed.

Lemma literal_text_bare (t : string) :
  strip t = t ->
  startswith t "'" && endswith t "'" = false ->
  literal_text t = t.
Proof. unfold literal_text. now intros -> ->. Qed.

Lemma literal_text_quoted (t : string) : literal_text ("'" ++ t ++ "'") = t.
Proof. exact (PyStrFacts.unquote t). Qed.

End StripFacts.

Section WhiteSpaceAndQuotes.

Variable literal_eval : string -> pyresult pyobj.
Variable dumps : pyobj -> pyresult string.
Variable loads : string -> pyresult pyobj.

Lemma preprocess_same_text (s u : string) :
  literal_text s = literal_text u ->
  preprocess_json_string_with literal_eval dumps s
  = preprocess_json_string_with literal_eval dumps u.
Proof.
  intros E. rewrite !preprocess_literal_text. now rewrite E.
Qed.

Lemma validate_same_text (s u : string) :
  s <> EmptyString -> u <> EmptyString ->
  literal_text s = literal_text u ->
  is_valid_json_with literal_eval dumps loads (Some s)
  = is_valid_json_with literal_eval dumps loads (Some u).
Proof.
  intros Hs Hu E. unfold is_valid_json_with.
  destruct s as [|c s]; [now elim Hs|].
  destruct u as [|d u]; [now elim Hu|].
  now rewrite (preprocess_same_text (String c s) (String d u) E).
Qed.

(** X3.  White space around the cell changes nothing: the normalisation of
    a text is that of the text stripped, and so is the answer of
    [is_valid_json], unless the text is white space only. *)
Theorem white_space_around_is_ignored (s : string) :
  preprocess_json_string_with literal_eval dumps (PyStr.strip s)
  = preprocess_json_string_with literal_eval dumps s
  /\ (PyStr.strip s <> EmptyString ->
      is_valid_json_with literal_eval dumps loads (Some (PyStr.strip s))
      = is_valid_json_with literal_eval dumps loads (Some s)).
Proof.
  split.
  - apply preprocess_same_text, StripFacts.literal_text_strip.
  - intros H. apply validate_same_text.
    + exact H.
    + intros ->. now apply H.
    + apply StripFacts.literal_text_strip.
Qed.

(** X4.  One pair of single quotes around a text is transparent: a cell
    ['t'] is judged as [t] is, when [t] has no white space around it and
    does not itself stand between single quotes. *)
Theorem quotes_are_transparent (t : string) :
  t <> EmptyString ->
  PyStr.strip t = t ->
  PyStr.startswith t "'" && PyStr.endswith t "'" = false ->
  preprocess_json_string_with literal_eval dumps ("'" ++ t ++ "'")
  = preprocess_json_string_with literal_eval dumps t
  /\ is_valid_json_with literal_eval dumps loads (Some ("'" ++ t ++ "'"))
     = is_valid_json_with literal_eval dumps loads (Some t).
Proof.
  intros Ht Hs Hq.
  assert (literal_text ("'" ++ t ++ "'") = literal_text t) as E.
  { rewrite StripFacts.literal_text_quoted.
    symmetry. now apply StripFacts.literal_text_bare. }
  split.
  - now apply preprocess_same_text.
  - apply validate_same_text; [discriminate | exact Ht | exact E].
Qed.

End WhiteSpaceAndQuotes.

Lemma white_space_around_is_ignored_witness :
  preprocess_json_string "[1, 'x']" = preprocess_json_string "  [1, 'x']  "
  /\ is_valid_json (Some "[1, 'x']") = is_valid_json (Some "  [1, 'x']  ").
Proof.
  split.
  - apply (proj1 (white_space_around_is_ignored Ast.literal_eval Json.dumps
                    Json.loads "  [1, 'x']  ")).
  - apply (proj2 (white_space_around_is_ignored Ast.literal_eval Json.dumps
                    Json.loads "  [1, 'x']  ")).
    discriminate.
Defined.

Lemma quotes_are_transparent_witness :
  preprocess_json_string "'[1, 2]'" = preprocess_json_string "[1, 2]"
  /\ is_valid_json (Some "'[1, 2]'") = is_valid_json (Some "[1, 2]").
Proof.
  apply (quotes_are_transparent Ast.literal_eval Json.dumps Json.loads
           "[1, 2]"); [discriminate | reflexivity | reflexivity].
Defined.

(** X5.  A cell of white space only is not the empty string for
    [is_valid_json]: it is stripped to the empty text, which is no literal,
    and the answer is a preprocessing error. *)
Theorem blank_cell_is_a_preprocessing_error (s : string) :
  s <> EmptyString ->
  PyStr.strip s = EmptyString ->
  exists msg,
    is_valid_json (Some s) = Return (false, msg)
    /\ String.prefix "Preprocessing error: " msg = true
    /\ msg <> "Empty string".
Proof.
  intros Hs Hb.
  exists "Preprocessing error: Failed to process string: invalid syntax".
  split; [|split; [reflexivity | discriminate]].
  apply (validate_preprocess_raises Ast.literal_eval Json.dumps Json.loads s
           (wrapped (mkExn SyntaxError "invalid syntax")) Hs);
    [|reflexivity].
  rewrite preprocess_literal_text.
  rewrite (StripFacts.literal_text_blank s Hb). reflexivity.
Qed.

Lemma blank_cell_is_a_preprocessing_error_witness :
  exists msg,
    is_valid_json (Some "   ") = Return (false, msg)
    /\ String.prefix "Preprocessing error: " msg = true
    /\ msg <> "Empty string".
Proof.
  apply (blank_cell_is_a_preprocessing_error "   ");
    [discriminate | reflexivity].
Defined.

(** ** The run: what ends it and what it prints *)

Lemma every_exception_is_an_Exception (e : exn) : isinstance e Exception = true.
Proof. destruct e as [[] m]; reflexivity. Qed.

(** The two clauses of [validate_csv_json_field] turn any exception of the
    body into one printed line. *)
Lemma run_handlers (csv_file : string) (body : io unit) (out : list string) :
  io_try body
    [Except [FileNotFoundError]
       (fun _ => print ("Error: File '" ++ csv_file ++ "' not found"));
     Except [Exception]
       (fun e => print ("Error processing file: " ++ exn_str e))] out
  = match body out with
    | (Raise e, out') =>
        (Return tt,
         (out' ++ [if isinstance e FileNotFoundError
                   then ("Error: File '" ++ csv_file ++ "' not found")%string
                   else ("Error processing file: " ++ exn_str e)%string])%list)
    | r => r
    end.
Proof.
  unfold io_try. destruct (body out) as [[a|e|w] out']; try reflexivity.
  cbn [dispatch h_classes h_body existsb].
  destruct (isinstance e FileNotFoundError); cbn [orb]; [reflexivity|].
  now rewrite every_exception_is_an_Exception.
Qed.

Lemma run_does_not_raise (fs : string -> Csv.file)
  (csv_file field_name : string) (out : list string) :
  match validate_csv_json_field fs csv_file field_name out with
  | (Raise _, _) => False
  | _ => True
  end.
Proof.
  unfold validate_csv_json_field. rewrite run_handlers.
  match goal with
  | |- match (match ?b with _ => _ end) with _ => _ end =>
      destruct b as [[a|e0|w] o]
  end; exact I.
Qed.

(** The body of the loop leaves the model only where the check of the cell
    does. *)
Lemma row_body_unmodelled (fieldnames : list string) (field_name : string) (r : list string)
  (n g b : nat) (out out' : list string) (why : string) :
  row_body fieldnames field_name r n g b out = (Unmodelled why, out') ->
  exists v,
    Csv.get_item (Csv.make_row fieldnames r) field_name = Some v
    /\ is_valid_json v = Unmodelled why.
Proof.
  unfold row_body, io_bind, lift.
  destruct (Csv.get_item (Csv.make_row fieldnames r) field_name) as [v|];
    [|discriminate].
  destruct (is_valid_json v) as [[[] msg]|e|w] eqn:Hv; cbn; try discriminate.
  intros [= <- _]. now exists v.
Qed.

Lemma rows_loop_unmodelled (fieldnames : list string) (field_name : string)
  (rows : list (list string)) (failure : option exn)
  (n g b : nat) (out out' : list string) (why : string) :
  rows_loop fieldnames field_name rows failure n g b out
  = (Unmodelled why, out') ->
  exists r v,
    In r rows
    /\ Csv.get_item (Csv.make_row fieldnames r) field_name = Some v
    /\ is_valid_json v = Unmodelled why.
Proof.
  revert n g b out.
  induction rows as [|r rows IH]; intros n g b out H.
  - cbn in H. destruct failure; discriminate.
  - destruct r as [|x r].
    + destruct (IH _ _ _ _ H) as (r' & v & Hin & Hv). exists r', v.
      split; [now right | exact Hv].
    + cbn [rows_loop] in H. unfold io_bind at 1 in H.
      destruct (row_body fieldnames field_name (x :: r) n g b out)
        as [[[g1 b1]|e|w] o] eqn:Hb.
      * destruct (IH _ _ _ _ H) as (r' & v & Hin & Hv). exists r', v.
        split; [now right | exact Hv].
      * discriminate.
      * injection H as -> _.
        destruct (row_body_unmodelled _ _ _ _ _ _ _ _ _ Hb) as (v & Hv).
        exists (x :: r), v. split; [now left | exact Hv].
Qed.

(** X6.  [validate_csv_json_field] lets no exception through and returns,
    whatever the file and the rows are.  The one other outcome the model
    has is that of a row whose check is outside the modelled fragment of the
    library: the run is then left open with the reason of that check. *)
Theorem validate_returns (fs : string -> Csv.file)
  (csv_file field_name : string) (out : list string) :
  (exists out',
      validate_csv_json_field fs csv_file field_name out = (Return tt, out'))
  \/ (exists why out' fieldnames rows failure r v,
         validate_csv_json_field fs csv_file field_name out
         = (Unmodelled why, out')
         /\ fs csv_file = Csv.Opens (fieldnames :: rows) failure
         /\ In r rows
         /\ Csv.get_item (Csv.make_row fieldnames r) field_name = Some v
         /\ is_valid_json v = Unmodelled why).
Proof.
  unfold validate_csv_json_field. rewrite run_handlers.
  destruct (fs csv_file) as [e|[|fieldnames rows] [e|]] eqn:Hfs;
    try (left; eexists; reflexivity).
  - destruct (negb (Csv.contains fieldnames field_name));
      [left; eexists; reflexivity|].
    unfold io_bind.
    destruct (rows_loop fieldnames field_name rows (Some e) 2 0 0 out)
      as [[[g b]|e'|w] o] eqn:Hl; try (left; eexists; reflexivity).
    right. destruct (rows_loop_unmodelled _ _ _ _ _ _ _ _ _ _ Hl)
      as (r & v & Hin & Hg & Hv).
    now exists w, o, fieldnames, rows, (Some e), r, v.
  - destruct (negb (Csv.contains fieldnames field_name));
      [left; eexists; reflexivity|].
    unfold io_bind.
    destruct (rows_loop fieldnames field_name rows None 2 0 0 out)
      as [[[g b]|e'|w] o] eqn:Hl; try (left; eexists; reflexivity).
    right. destruct (rows_loop_unmodelled _ _ _ _ _ _ _ _ _ _ Hl)
      as (r & v & Hin & Hg & Hv).
    now exists w, o, fieldnames, rows, None, r, v.
Qed.

(** X7.  An exception of [open] other than [FileNotFoundError] (a
    permission error, a directory) is reported as "Error processing
    file: ...", not as a file that is not found. *)
Theorem other_open_failures (fs : string -> Csv.file)
  (csv_file field_name : string) (out : list string) (e : exn) :
  fs csv_file = Csv.OpenFails e ->
  isinstance e FileNotFoundError = false ->
  validate_csv_json_field fs csv_file field_name out
  = (Return tt, (out ++ [("Error processing file: " ++ exn_str e)%string])%list).
Proof.
  intros Hfs He. unfold validate_csv_json_field.
  rewrite run_handlers, Hfs. unfold lift. now rewrite He.
Qed.

Lemma other_open_failures_witness :
  validate_csv_json_field
    (fun _ => Csv.OpenFails (mkExn OSError "[Errno 13] Permission denied"))
    "rows.csv" "data" []
  = (Return tt, ["Error processing file: [Errno 13] Permission denied"]).
Proof.
  apply (other_open_failures
           (fun _ => Csv.OpenFails (mkExn OSError "[Errno 13] Permission denied"))
           "rows.csv" "data" []
           (mkExn OSError "[Errno 13] Permission denied"));
    reflexivity.
Defined.

(** X8.  A file without data rows.  A file without any record has no
    header: the run prints one "Error processing file: ..." line.  A file
    with a header only, which has the field, prints the summary with two
    zeros. *)
Theorem files_without_rows (fs : string -> Csv.file)
  (csv_file field_name : string) (out : list string) :
  (fs csv_file = Csv.Opens [] None ->
   exists line,
     validate_csv_json_field fs csv_file field_name out
     = (Return tt, (out ++ [line])%list)
     /\ String.prefix "Error processing file: " line = true)
  /\ (forall fieldnames,
        fs csv_file = Csv.Opens [fieldnames] None ->
        Csv.contains fieldnames field_name = true ->
        validate_csv_json_field fs csv_file field_name out
        = (Return tt,
           (out ++ ["Validation complete. 0 valid rows, 0 invalid rows"])%list)).
Proof.
  split.
  - intros Hfs. eexists. unfold validate_csv_json_field.
    rewrite run_handlers, Hfs. split; reflexivity.
  - intros fieldnames Hfs Hf. unfold validate_csv_json_field.
    rewrite run_handlers, Hfs, Hf. reflexivity.
Qed.

Lemma files_without_rows_witness :
  let fs := fun p : string =>
    if String.eqb p "empty.csv" then Csv.Opens [] None
    else Csv.Opens [["id"; "data"]] None in
  (exists line,
     validate_csv_json_field fs "empty.csv" "data" [] = (Return tt, [line])
     /\ String.prefix "Error processing file: " line = true)
  /\ validate_csv_json_field fs "header.csv" "data" []
     = (Return tt, ["Validation complete. 0 valid rows, 0 invalid rows"]).
Proof.
  intros fs. split.
  - apply (proj1 (files_without_rows fs "empty.csv" "data" [])). reflexivity.
  - apply (proj2 (files_without_rows fs "header.csv" "data" [])
             ["id"; "data"]); reflexivity.
Defined.

(** The run, once the file is open and the header has the field. *)
Lemma run_of_loop (fs : string -> Csv.file) (csv_file field_name : string)
  (fieldnames : list string) (rows : list (list string))
  (failure : option exn) (out : list string) :
  fs csv_file = Csv.Opens (fieldnames :: rows) failure ->
  Csv.contains fieldnames field_name = true ->
  validate_csv_json_field fs csv_file field_name out
  = match rows_loop fieldnames field_name rows failure 2 0 0 out with
    | (Return (g, b), out') => (Return tt, (out' ++ [summary g b])%list)
    | (Raise e, out') =>
        (Return tt,
         (out' ++ [if isinstance e FileNotFoundError
                   then ("Error: File '" ++ csv_file ++ "' not found")%string
                   else ("Error processing file: " ++ exn_str e)%string])%list)
    | (Unmodelled w, out') => (Unmodelled w, out')
    end.
Proof.
  intros Hfs Hf. unfold validate_csv_json_field.
  rewrite run_handlers, Hfs, Hf. cbn [negb]. unfold io_bind.
  destruct (rows_loop fieldnames field_name rows failure 2 0 0 out)
    as [[[g b]|e|w] out']; reflexivity.
Qed.

(** X9.  When the reader fails after the rows it has yielded (a decoding
    error, a [csv.Error]), the run prints the diagnostics of those rows and
    then one "Error processing file: ..." line; the summary is not
    printed. *)
Theorem reader_failure_is_reported (fs : string -> Csv.file)
  (csv_file field_name : string) (fieldnames : list string)
  (rows : list (list string)) (e : exn) (g b : nat) (out out' : list string) :
  fs csv_file = Csv.Opens (fieldnames :: rows) (Some e) ->
  Csv.contains fieldnames field_name = true ->
  rows_loop fieldnames field_name rows None 2 0 0 out = (Return (g, b), out') ->
  isinstance e FileNotFoundError = false ->
  validate_csv_json_field fs csv_file field_name out
  = (Return tt, (out' ++ [("Error processing file: " ++ exn_str e)%string])%list).
Proof.
  intros Hfs Hf Hl He.
  rewrite (run_of_loop fs csv_file field_name fieldnames rows (Some e) out
             Hfs Hf).
  rewrite <- (List.app_nil_r rows) at 1. rewrite rows_loop_app, Hl.
  cbn [rows_loop]. unfold lift. now rewrite He.
Qed.

Lemma reader_failure_is_reported_witness :
  let e := mkExn CsvError "line contains NUL" in
  validate_csv_json_field
    (fun _ => Csv.Opens [["id"; "data"]; ["1"; "oops"]] (Some e))
    "rows.csv" "data" []
  = (Return tt,
     (diagnostic 2 (Some "oops")
        ("Preprocessing error: Failed to process string: "
         ++ "malformed node or string: Name oops")%string
      ++ ["Error processing file: line contains NUL"])%list).
Proof.
  intros e.
  apply (reader_failure_is_reported
           (fun _ => Csv.Opens [["id"; "data"]; ["1"; "oops"]] (Some e))
           "rows.csv" "data" ["id"; "data"] [["1"; "oops"]] e 0 1 []);
    reflexivity.
Defined.

(** X10.  A row whose check raises ends the run: the rows after it are not
    read, the counters are not printed, and the last line is "Error
    processing file: ..." with the text of the exception. *)
Theorem raising_row_ends_the_run (fs : string -> Csv.file)
  (csv_file field_name : string) (fieldnames : list string)
  (rows1 rows2 : list (list string)) (r : list string)
  (failure : option exn) (v : option string) (e : exn)
  (g b : nat) (out out1 : list string) :
  fs csv_file = Csv.Opens (fieldnames :: rows1 ++ r :: rows2) failure ->
  Csv.contains fieldnames field_name = true ->
  rows_loop fieldnames field_name rows1 None 2 0 0 out
  = (Return (g, b), out1) ->
  r <> [] ->
  Csv.get_item (Csv.make_row fieldnames r) field_name = Some v ->
  is_valid_json v = Raise e ->
  isinstance e FileNotFoundError = false ->
  validate_csv_json_field fs csv_file field_name out
  = (Return tt, (out1 ++ [("Error processing file: " ++ exn_str e)%string])%list).
Proof.
  intros Hfs Hf Hl Hr Hv Hj He.
  rewrite (run_of_loop fs csv_file field_name fieldnames _ failure out Hfs Hf).
  rewrite rows_loop_app, Hl.
  destruct r as [|x r]; [now elim Hr|].
  cbn [rows_loop]. unfold io_bind at 1.
  unfold row_body, io_bind, lift. rewrite Hv, Hj. now rewrite He.
Qed.

Lemma raising_row_ends_the_run_witness :
  validate_csv_json_field
    (fun _ => Csv.Opens [["id"; "data"]; ["1"; "[1]"]; ["2"; "{1, 2}"];
                         ["3"; "[3]"]] None)
    "rows.csv" "data" []
  = (Return tt,
     ["Error processing file: Object of type set is not JSON serializable"]).
Proof.
  apply (raising_row_ends_the_run
           (fun _ => Csv.Opens [["id"; "data"]; ["1"; "[1]"]; ["2"; "{1, 2}"];
                                ["3"; "[3]"]] None)
           "rows.csv" "data" ["id"; "data"] [["1"; "[1]"]] [["3"; "[3]"]]
           ["2"; "{1, 2}"] None (Some "{1, 2}")
           (mkExn TypeError "Object of type set is not JSON serializable")
           1 0 [] []);
    try reflexivity; try discriminate.
Defined.

(** ** What the loop prints *)





(** X12.  The empty records of the file (its blank lines) change nothing:
    neither the counters, nor the numbers of the lines, nor what is
    printed. *)
Theorem blank_records_are_skipped (fieldnames : list string)
  (field_name : string) (rows : list (list string)) (failure : option exn)
  (n g b : nat) (out : list string) :
  rows_loop fieldnames field_name (filter is_data_row rows) failure n g b out
  = rows_loop fieldnames field_name rows failure n g b out.
Proof.
  revert n g b out.
  induction rows as [|r rows IH]; intros n g b out; [reflexivity|].
  destruct r as [|x r]; [exact (IH n g b out)|].
  cbn [filter is_data_row rows_loop]. unfold io_bind.
  destruct (row_body fieldnames field_name (x :: r) n g b out)
    as [[[g1 b1]|e|w] out1]; try reflexivity.
  apply IH.
Qed.

Lemma combine_excess (fieldnames r extra : list string) :
  List.length fieldnames <= List.length r ->
  combine fieldnames (r ++ extra) = combine fieldnames r.
Proof.
  revert r. induction fieldnames as [|k l IH]; intros [|x r] H; cbn in *;
    try reflexivity; try lia.
  f_equal. apply IH. lia.
Qed.

(** X13.  The fields a record has beyond the header are not looked at: the
    row is checked as the record cut to the length of the header. *)
Theorem excess_fields_are_ignored (fieldnames : list string)
  (field_name : string) (r extra : list string) (n g b : nat)
  (out : list string) :
  List.length fieldnames <= List.length r ->
  Csv.make_row fieldnames (r ++ extra) = Csv.make_row fieldnames r
  /\ row_body fieldnames field_name (r ++ extra) n g b out
     = row_body fieldnames field_name r n g b out.
Proof.
  intros H.
  assert (Csv.make_row fieldnames (r ++ extra) = Csv.make_row fieldnames r)
    as E.
  { unfold Csv.make_row. rewrite (combine_excess fieldnames r extra H).
    rewrite !skipn_all2; [reflexivity | lia |].
    rewrite List.length_app. lia. }
  split; [exact E|]. unfold row_body. now rewrite E.
Qed.

Lemma excess_fields_are_ignored_witness :
  Csv.make_row ["id"; "data"] ["1"; "[1]"; "more"; "fields"]
  = Csv.make_row ["id"; "data"] ["1"; "[1]"]
  /\ row_body ["id"; "data"] "data" ["1"; "[1]"; "more"; "fields"] 2 0 0 []
     = row_body ["id"; "data"] "data" ["1"; "[1]"] 2 0 0 [].
Proof.
  apply (excess_fields_are_ignored ["id"; "data"] "data" ["1"; "[1]"]
           ["more"; "fields"] 2 0 0 []).
  cbn. lia.
Defined.

(** ** The command line *)

(** X14.  With a number of arguments other than two, [main] prints the
    usage line and exits with status 1; it does not look at the file
    system. *)
Theorem wrong_arguments_print_the_usage (fs : string -> Csv.file)
  (argv : list string) (out : list string) :
  List.length argv <> 3 ->
  main fs argv out = (Exits 1, (out ++ [usage])%list).
Proof.
  intros H.
  destruct argv as [|a [|b [|c [|d l]]]]; try reflexivity.
  now elim H.
Qed.

Lemma wrong_arguments_print_the_usage_witness :
  main (fun _ => Csv.Opens [["id"; "data"]] None) ["script.py"; "rows.csv"] []
  = (Exits 1, [usage]).
Proof.
  apply (wrong_arguments_print_the_usage
           (fun _ => Csv.Opens [["id"; "data"]] None)
           ["script.py"; "rows.csv"] []).
  discriminate.
Defined.

(** X15.  With two arguments, the process never ends on an exception and
    never with a status other than 0: a file that is not found, a field
    that the header has not and a failure in the middle of the file all end
    with status 0, after the line that reports them. *)
Theorem two_arguments_exit_with_zero (fs : string -> Csv.file)
  (script csv_file field_name : string) (out : list string) :
  (forall e, fst (main fs [script; csv_file; field_name] out) <> Dies e)
  /\ (forall status,
        fst (main fs [script; csv_file; field_name] out) = Exits status ->
        status = 0)
  /\ (forall e,
        fs csv_file = Csv.OpenFails e ->
        main fs [script; csv_file; field_name] out
        = (Exits 0,
           (out ++ [if isinstance e FileNotFoundError
                    then ("Error: File '" ++ csv_file ++ "' not found")%string
                    else ("Error processing file: " ++ exn_str e)%string])%list)).
Proof.
  cbn [main]. split; [|split].
  - intros e.
    pose proof (run_does_not_raise fs csv_file field_name out) as R.
    destruct (validate_csv_json_field fs csv_file field_name out)
      as [[a|e0|w] out']; try discriminate.
    now elim R.
  - intros status.
    destruct (validate_csv_json_field fs csv_file field_name out)
      as [[a|e0|w] out']; try discriminate.
    now intros [= <-].
  - intros e Hfs. unfold validate_csv_json_field.
    rewrite run_handlers, Hfs. reflexivity.
Qed.

Lemma two_arguments_exit_with_zero_witness :
  main (fun _ => Csv.OpenFails (mkExn FileNotFoundError "No such file"))
    ["script.py"; "none.csv"; "data"] []
  = (Exits 0, ["Error: File 'none.csv' not found"]).
Proof.
  apply (proj2 (proj2 (two_arguments_exit_with_zero
                         (fun _ => Csv.OpenFails
                                     (mkExn FileNotFoundError "No such file"))
                         "script.py" "none.csv" "data" []))
           (mkExn FileNotFoundError "No such file")).
  reflexivity.
Defined.


(** ** The normalised form is read back *)

Module RoundTrip.

Import PyStr PyObj Json.

(** What [json.dumps] writes for a character is read back as the
    character. *)
Lemma scan_escaped_char (c : ascii) (tail : string) :
  scanstring SPlain (escape_char c ++ tail)
  = ('(body, r) <- scanstring SPlain tail ;; Return (String c body, r)).
Proof.
  destruct c as [[] [] [] [] [] [] [] []]; reflexivity.
Qed.

Lemma scan_escaped (s rest : string) :
  scanstring SPlain (escape s ++ String dq rest) = Return (s, rest).
Proof.
  induction s as [|c s IH]; [reflexivity|].
  cbn [escape]. rewrite TokenFacts.app_assoc_str, scan_escaped_char, IH.
  reflexivity.
Qed.

Lemma scan_encoded (s rest : string) (f d : nat) :
  scan_once (S f) d (encode_str s ++ rest) = Return (PStr s, rest).
Proof.
  unfold encode_str, quoted. cbn [append].
  rewrite TokenFacts.app_assoc_str. cbn [append].
  change (scan_once (S f) d (String dq (escape s ++ String dq rest)))
    with ('(v, r) <- scanstring SPlain (escape s ++ String dq rest) ;;
          Return (PStr v, r)).
  now rewrite scan_escaped.
Qed.

Lemma value_end_digit (rest : string) :
  value_end rest -> Ast.next_is Ast.is_digit rest = false.
Proof. destruct rest as [|c r]; [reflexivity|]. now intros [->|[->| ->]]. Qed.

Lemma value_end_float (rest : string) :
  value_end rest -> float_follows rest = false.
Proof. destruct rest as [|c r]; [reflexivity|]. now intros [->|[->| ->]]. Qed.

(** A numeral is read as a number, whatever the sign before it. *)
Lemma number_reads (neg : bool) (ds rest : string) (z : Z) :
  PyList.numeral ds z -> value_end rest ->
  reads (number neg (ds ++ rest)) rest.
Proof.
  intros Hn He. unfold number.
  assert (int_part (ds ++ rest) = Some (ds, rest)) as ->.
  { destruct Hn as [|c ds p Hc Hz Hspan Hv]; [reflexivity|].
    cbn [append int_part].
    replace (Ascii.eqb c "0") with false
      by (symmetry; now apply Ascii.eqb_neq).
    rewrite Hc.
    change (String c (ds ++ rest)) with (String c ds ++ rest).
    rewrite (Hspan rest); [reflexivity|]. now apply value_end_digit. }
  rewrite (value_end_float rest He).
  destruct (Ast.max_digits <? Z.of_nat (String.length ds))%Z;
    [now right | reflexivity].
Qed.

Lemma int_reads (z : Z) (rest : string) (f d : nat) :
  value_end rest -> reads (scan_once (S f) d (str_of_Z z ++ rest)) rest.
Proof.
  intros He.
  destruct z as [|p|p].
  - rewrite (LoadsFacts.numeral_leads_number f d _ rest 0
               (DecimalText.str_of_Z_numeral 0 ltac:(lia))).
    apply (number_reads false _ rest 0); [|exact He].
    apply DecimalText.str_of_Z_numeral. lia.
  - pose proof (DecimalText.str_of_Z_numeral (Z.pos p) ltac:(lia)) as Hn.
    rewrite (LoadsFacts.numeral_leads_number f d _ rest _ Hn).
    now apply (number_reads false _ rest (Z.pos p)).
  - pose proof (DecimalText.str_of_Z_numeral (Z.pos p) ltac:(lia)) as Hn.
    rewrite DecimalText.str_of_Z_neg. cbn [append].
    change (scan_once (S f) d (String "-" (str_of_Z (Z.pos p) ++ rest)))
      with (number true (str_of_Z (Z.pos p) ++ rest)).
    now apply (number_reads true _ rest (Z.pos p)).
Qed.

Lemma append_nil (s : string) : s ++ EmptyString = s.
Proof. induction s as [|c s IH]; cbn; [reflexivity | now rewrite IH]. Qed.

(** Reading on after a reader that did not raise. *)
Lemma reads_bind {A B : Type} (r : pyresult (A * string)) (mid rest : string)
  (k : A * string -> pyresult (B * string)) :
  reads r mid ->
  (forall a, reads (k (a, mid)) rest) ->
  reads (bind r k) rest.
Proof.
  destruct r as [[a m]|e|w]; cbn; [intros -> H; apply H | tauto | trivial].
Qed.

Lemma readable_constant (w : string) (v : pyobj) :
  In (w, v) [("null", PNone); ("true", PBool true); ("false", PBool false)] ->
  readable w.
Proof.
  intros H. split.
  - intros [|f] d rest Hf _;
      destruct H as [[= <- <-]|[[= <- <-]|[[= <- <-]|[]]]];
      solve [cbn in Hf; lia | reflexivity].
  - destruct H as [[= <- <-]|[[= <- <-]|[[= <- <-]|[]]]];
      eexists _, _; repeat split; reflexivity.
Qed.

Lemma readable_int (z : Z) : readable (str_of_Z z).
Proof.
  destruct (LoadsFacts.json_lead (PyList.IInt z)) as (c & r & E & Hw & Hc).
  cbn [PyList.json] in E. split.
  - intros [|f] d rest Hf; [rewrite E in Hf; cbn in Hf; lia|].
    apply int_reads.
  - now exists c, r.
Qed.

Lemma readable_str (s : string) : readable (encode_str s).
Proof.
  split.
  - intros [|f] d rest Hf _; [cbn in Hf; lia|]. now rewrite scan_encoded.
  - eexists _, _. repeat split; reflexivity.
Qed.

Lemma skip_ws_lead (a tail : string) :
  readable a -> skip_ws (a ++ tail) = a ++ tail.
Proof.
  intros [_ (c & r & -> & Hw & _)]. cbn [append skip_ws]. now rewrite Hw.
Qed.

Lemma join_two (a b : string) (l : list string) :
  join ", " (a :: b :: l) = a ++ ", " ++ join ", " (b :: l).
Proof. reflexivity. Qed.

Lemma join_lead (a : string) (l : list string) (tail : string) :
  readable a ->
  skip_ws (join ", " (a :: l) ++ tail) = join ", " (a :: l) ++ tail.
Proof.
  intros Ha. destruct l as [|b l].
  - now apply skip_ws_lead.
  - rewrite join_two, TokenFacts.app_assoc_str. now apply skip_ws_lead.
Qed.

Lemma join_cons_app (a : string) (l : list string) (tail : string) :
  join ", " (a :: l) ++ tail
  = a ++ match l with
         | [] => tail
         | _ :: _ => ", " ++ join ", " l ++ tail
         end.
Proof.
  destruct l as [|b l]; [reflexivity|].
  now rewrite join_two, !TokenFacts.app_assoc_str.
Qed.

Lemma length_cons (c : ascii) (s : string) :
  String.length (String c s) = S (String.length s).
Proof. reflexivity. Qed.

(** The members of an array, as [json.dumps] separates them. *)
Lemma array_reads (parts : list string) :
  Forall readable parts -> parts <> [] ->
  forall f d rest,
    String.length (join ", " parts ++ String "]" rest)
    <= String.length rest + f ->
    reads (array_items f d (join ", " parts ++ String "]" rest)) rest.
Proof.
  induction 1 as [|a parts Ha Hparts IH]; intros Hne f d rest Hf;
    [now elim Hne|].
  destruct f as [|f];
    [rewrite join_cons_app, PyStrFacts.length_app in Hf;
     destruct parts; cbn [append] in Hf;
     rewrite ?length_cons, ?PyStrFacts.length_app, ?length_cons in Hf; lia|].
  destruct parts as [|b parts].
  - cbn [join array_items]. cbn [join] in Hf.
    rewrite PyStrFacts.length_app, length_cons in Hf.
    apply (reads_bind _ (String "]" rest)).
    + apply (proj1 Ha); [lia | cbn; auto].
    + intros v. reflexivity.
  - rewrite join_two, !TokenFacts.app_assoc_str in Hf |- *.
    cbn [array_items].
    rewrite PyStrFacts.length_app in Hf. cbn [append] in Hf.
    rewrite !length_cons in Hf.
    pose proof (PyStrFacts.length_app (join ", " (b :: parts))
                  (String "]" rest)) as Hl.
    rewrite length_cons in Hl.
    apply (reads_bind _ (", " ++ join ", " (b :: parts) ++ String "]" rest)).
    + apply (proj1 Ha); [lia | cbn; auto].
    + intros v. cbn [append].
      change (skip_ws (String "," (String " "
                (join ", " (b :: parts) ++ String "]" rest))))
        with (String "," (String " "
                (join ", " (b :: parts) ++ String "]" rest))).
      cbv beta iota.
      change (Ascii.eqb "," "]") with false.
      change (Ascii.eqb "," ",") with true. cbv beta iota.
      change (skip_ws (String " " (join ", " (b :: parts) ++ String "]" rest)))
        with (skip_ws (join ", " (b :: parts) ++ String "]" rest)).
      rewrite (join_lead b parts _ (Forall_inv Hparts)).
      apply (reads_bind _ rest).
      * apply IH; [discriminate | lia].
      * intros l. reflexivity.
Qed.

(** The text [json.dumps] writes for the members of an object. *)
Lemma members_join (kvs : list (string * string)) (rest : string) :
  kvs <> [] ->
  join ", " (map (fun kv => encode_str (fst kv) ++ ": " ++ snd kv) kvs)
  ++ String "}" rest
  = String dq (members_text kvs rest).
Proof.
  induction kvs as [|[ks vs] kvs IH]; intros Hne; [now elim Hne|].
  cbn [map fst snd]. rewrite join_cons_app.
  rewrite TokenFacts.app_assoc_str.
  unfold encode_str, quoted. cbn [append members_text].
  rewrite !TokenFacts.app_assoc_str. cbn [append].
  do 5 f_equal.
  destruct kvs as [|kv kvs]; [reflexivity|].
  cbn [map]. cbn [append]. do 3 f_equal.
  exact (IH ltac:(discriminate)).
Qed.

Lemma members_length (kvs : list (string * string)) (rest : string) :
  String.length rest <= String.length (members_text kvs rest).
Proof.
  induction kvs as [|[ks vs] kvs IH]; [apply Nat.le_refl|].
  cbn [members_text].
  rewrite PyStrFacts.length_app, !length_cons, PyStrFacts.length_app.
  destruct kvs; rewrite !length_cons; lia.
Qed.

(** The members of an object, after the opening quote of the first key. *)
Lemma object_reads (kvs : list (string * string)) :
  Forall (fun kv => readable (snd kv)) kvs -> kvs <> [] ->
  forall f d rest acc,
    String.length (members_text kvs rest) <= String.length rest + f ->
    reads (object_items f d (members_text kvs rest) acc) rest.
Proof.
  induction 1 as [|[ks vs] kvs Hv Hkvs IH]; intros Hne f d rest acc Hf;
    [now elim Hne|].
  cbn [fst snd] in *. cbn [members_text] in Hf |- *.
  rewrite PyStrFacts.length_app, !length_cons, PyStrFacts.length_app in Hf.
  pose proof (members_length kvs rest) as Hl.
  destruct f as [|f]; [destruct kvs; rewrite !length_cons in Hf; lia|].
  cbn [object_items].
  rewrite scan_escaped. cbn [bind].
  match goal with
  | |- context [skip_ws (String ":" (String " " (vs ++ ?t)))] =>
      set (tail := t) in *;
      change (skip_ws (String ":" (String " " (vs ++ tail))))
        with (String ":" (String " " (vs ++ tail)))
  end.
  cbv beta iota. change (Ascii.eqb ":" ":") with true. cbv beta iota.
  change (skip_ws (String " " (vs ++ tail))) with (skip_ws (vs ++ tail)).
  assert (skip_ws (vs ++ tail) = vs ++ tail) as ->
    by (now apply skip_ws_lead).
  apply (reads_bind _ tail).
  - apply (proj1 Hv); subst tail; destruct kvs;
      rewrite ?length_cons in Hf; solve [lia | cbn; auto].
  - intros v. subst tail. destruct kvs as [|kv kvs]; [reflexivity|].
    rewrite !length_cons in Hf.
    match goal with
    | |- context [skip_ws (String "," (String " " (String dq ?t)))] =>
        change (skip_ws (String "," (String " " (String dq t))))
          with (String "," (String " " (String dq t)));
        cbv beta iota;
        change (Ascii.eqb "," "}") with false;
        change (Ascii.eqb "," ",") with true; cbv beta iota;
        change (skip_ws (String " " (String dq t))) with (String dq t)
    end.
    cbv beta iota. change (Ascii.eqb dq dq) with true. cbv beta iota.
    apply IH; [discriminate | lia].
Qed.

(** A list, as [json.dumps] writes it. *)
Lemma readable_array (parts : list string) :
  Forall readable parts -> readable ("[" ++ join ", " parts ++ "]").
Proof.
  intros Hparts. split; [|eexists _, _; repeat split; reflexivity].
  intros f d rest Hf He. cbn [append] in Hf |- *.
  rewrite length_cons in Hf.
  rewrite TokenFacts.app_assoc_str. cbn [append].
  destruct f as [|f]; [lia|].
  destruct d as [|d]; [now left|].
  destruct parts as [|a parts]; [reflexivity|].
  pose proof (Forall_inv Hparts) as Ha.
  cbn [scan_once].
  change (Ascii.eqb "[" dq) with false.
  change (Ascii.eqb "[" "{") with false.
  change (Ascii.eqb "[" "[") with true. cbv beta iota.
  rewrite (join_lead a parts _ Ha).
  assert (exists c r, join ", " (a :: parts) ++ String "]" rest = String c r
                      /\ Ascii.eqb c "]" = false) as (c & r & E & Hc).
  { destruct Ha as [_ (c & r & -> & _ & Hc)].
    rewrite join_cons_app. cbn [append]. eauto. }
  rewrite E, Hc, <- E.
  apply (reads_bind _ rest); [|reflexivity].
  apply array_reads; [exact Hparts | discriminate |].
  rewrite PyStrFacts.length_app, length_cons in Hf |- *.
  cbn [String.length] in Hf. lia.
Qed.

(** A dict, as [json.dumps] writes it. *)
Lemma readable_object (kvs : list (string * string)) :
  Forall (fun kv => readable (snd kv)) kvs ->
  readable
    ("{" ++ join ", " (map (fun kv => encode_str (fst kv) ++ ": " ++ snd kv)
                         kvs) ++ "}").
Proof.
  intros Hkvs. split; [|eexists _, _; repeat split; reflexivity].
  intros f d rest Hf He.
  rewrite !PyStrFacts.length_app in Hf. cbn [String.length] in Hf.
  cbn [append].
  rewrite TokenFacts.app_assoc_str. cbn [append].
  destruct f as [|f]; [lia|].
  destruct d as [|d]; [now left|].
  destruct kvs as [|kv kvs]; [reflexivity|].
  pose proof (f_equal String.length
                (members_join (kv :: kvs) rest ltac:(discriminate))) as Hl.
  rewrite PyStrFacts.length_app, !length_cons in Hl.
  rewrite members_join by discriminate.
  cbn [scan_once].
  change (Ascii.eqb "{" dq) with false.
  change (Ascii.eqb "{" "{") with true. cbv beta iota.
  match goal with
  | |- context [skip_ws (String dq ?t)] =>
      change (skip_ws (String dq t)) with (String dq t)
  end.
  cbv beta iota.
  change (Ascii.eqb dq "}") with false.
  change (Ascii.eqb dq dq) with true. cbv beta iota.
  apply (reads_bind _ rest); [|reflexivity].
  apply object_reads; [exact Hkvs | discriminate | lia].
Qed.

(** [Json.dumps] on a list, a tuple and a dict, with its inner loops by
    name. *)
Lemma dumps_list (l : list pyobj) :
  dumps (PList l)
  = (parts <- dumps_all l ;; Return ("[" ++ join ", " parts ++ "]")).
Proof. reflexivity. Qed.

Lemma dumps_tuple (l : list pyobj) :
  dumps (PTuple l)
  = (parts <- dumps_all l ;; Return ("[" ++ join ", " parts ++ "]")).
Proof. reflexivity. Qed.

Lemma dumps_dict (items : list (pyobj * pyobj)) :
  dumps (PDict items)
  = (kvs <- dumps_members items ;;
     Return ("{" ++ join ", "
                      (map (fun kv => encode_str (fst kv) ++ ": " ++ snd kv)
                         kvs) ++ "}")).
Proof.
  cbn [dumps].
  match goal with
  | |- bind ?go _ = _ =>
      assert (go = (kvs <- dumps_members items ;;
                    Return (map (fun kv => encode_str (fst kv) ++ ": "
                                           ++ snd kv) kvs))) as ->
  end.
  { induction items as [|[k v] items IH]; [reflexivity|].
    cbn [dumps_members]. rewrite IH.
    destruct (key_str k) as [ks| |]; [|reflexivity..]. cbn [bind].
    destruct (dumps v) as [vs| |]; [|reflexivity..]. cbn [bind].
    now destruct (dumps_members items). }
  now destruct (dumps_members items).
Qed.

(** Whatever [json.dumps] writes is readable: by recursion on the value,
    and for a list, a tuple and a dict by induction on its items. *)
Lemma dumps_readable : forall (v : pyobj) (p : string),
  dumps v = Return p -> readable p.
Proof.
  fix IH 1. intros v p E.
  destruct v as [|[]|z|s|l|l|l|items].
  - injection E as <-. apply (readable_constant _ PNone). now left.
  - injection E as <-. apply (readable_constant _ (PBool true)).
    right; now left.
  - injection E as <-. apply (readable_constant _ (PBool false)).
    right; right; now left.
  - injection E as <-. apply readable_int.
  - injection E as <-. apply readable_str.
  - rewrite dumps_list in E.
    destruct (dumps_all l) as [parts| |] eqn:El; [|discriminate..].
    injection E as <-. apply readable_array.
    revert parts El. induction l as [|x l IHl]; intros parts El.
    + injection El as <-. constructor.
    + cbn [dumps_all] in El.
      destruct (dumps x) as [a| |] eqn:Ex; [|discriminate..].
      destruct (dumps_all l) as [r| |]; [|discriminate..].
      injection El as <-. constructor; [exact (IH x a Ex)|].
      now apply IHl.
  - rewrite dumps_tuple in E.
    destruct (dumps_all l) as [parts| |] eqn:El; [|discriminate..].
    injection E as <-. apply readable_array.
    revert parts El. induction l as [|x l IHl]; intros parts El.
    + injection El as <-. constructor.
    + cbn [dumps_all] in El.
      destruct (dumps x) as [a| |] eqn:Ex; [|discriminate..].
      destruct (dumps_all l) as [r| |]; [|discriminate..].
      injection El as <-. constructor; [exact (IH x a Ex)|].
      now apply IHl.
  - discriminate.
  - rewrite dumps_dict in E.
    destruct (dumps_members items) as [kvs| |] eqn:El; [|discriminate..].
    injection E as <-. apply readable_object.
    revert kvs El. induction items as [|[k x] items IHl]; intros kvs El.
    + injection El as <-. constructor.
    + cbn [dumps_members] in El.
      destruct (key_str k) as [ks| |]; [|discriminate..].
      destruct (dumps x) as [a| |] eqn:Ex; [|discriminate..].
      destruct (dumps_members items) as [r| |]; [|discriminate..].
      injection El as <-. constructor; [exact (IH x a Ex)|].
      now apply IHl.
Qed.

(** [json.loads] on a readable text. *)
Lemma loads_readable (p : string) :
  readable p ->
  (exists v, loads p = Return v)
  \/ (exists why, beyond_limits why /\ loads p = Unmodelled why).
Proof.
  intros Hp. unfold loads.
  pose proof (skip_ws_lead p EmptyString Hp) as Hs.
  rewrite append_nil in Hs. rewrite Hs.
  pose proof (proj1 Hp (2 * String.length p + 2) Ast.max_depth EmptyString
                ltac:(lia) I) as Hr.
  rewrite append_nil in Hr.
  destruct (scan_once _ _ p) as [[v rest]|e|w]; cbn in Hr.
  - subst rest. left. now exists v.
  - contradiction.
  - right. now exists w.
Qed.

End RoundTrip.

(** What [preprocess_json_string] returns was written by [json.dumps]: the
    clause of its [try] statement returns nothing. *)
Lemma preprocess_returns_dumps (s p : string) :
  preprocess_json_string s = Return p ->
  exists v, Json.dumps v = Return p.
Proof.
  intros H. unfold preprocess_json_string in H.
  rewrite preprocess_literal_text in H.
  destruct (Ast.literal_eval (literal_text s)) as [v|e|w];
    [|cbn [bind try_except dispatch h_classes h_body] in H;
      destruct (existsb _ _); discriminate
     |discriminate].
  exists v. cbn [bind] in H.
  destruct (Json.dumps v) as [q|e|w]; [exact H| |discriminate].
  cbn [try_except dispatch h_classes h_body] in H.
  destruct (existsb _ _); discriminate.
Qed.

(** What [preprocess_json_string] raises and [is_valid_json] catches is the
    exception of its own clause. *)
Lemma preprocess_raises_wrapped (s : string) (e : exn) :
  preprocess_json_string s = Raise e ->
  isinstance e ValueError = true ->
  exists e0, e = wrapped e0.
Proof.
  intros H He. unfold preprocess_json_string in H.
  rewrite preprocess_literal_text in H.
  destruct (_ <- Ast.literal_eval (literal_text s) ;; Json.dumps _)
    as [q|e0|w]; [discriminate| |discriminate].
  cbn [try_except dispatch h_classes h_body existsb] in H.
  destruct (isinstance e0 ValueError) eqn:Hv; cbn [orb] in H.
  - injection H as <-. now exists e0.
  - destruct (isinstance e0 SyntaxError); cbn [orb] in H;
      injection H as <-; [now exists e0 | congruence].
Qed.

(** X16.  Whatever [preprocess_json_string] returns, [json.loads] reads:
    once the normalisation of a cell has returned, [is_valid_json] answers
    [True] with the empty message, the two limits of the model of
    [json.loads] apart (brackets nested deeper than twenty, integers of more
    than 4300 digits).  [json.loads] does not raise there. *)
Theorem normalised_text_is_read_back (s p : string) :
  preprocess_json_string s = Return p ->
  is_valid_json (Some s) = Return (true, EmptyString)
  \/ exists why, beyond_limits why
                 /\ is_valid_json (Some s) = Unmodelled why.
Proof.
  intros H.
  destruct (preprocess_returns_dumps s p H) as [v Ev].
  destruct s as [|c s]; [discriminate|].
  unfold is_valid_json, is_valid_json_with.
  fold preprocess_json_string. rewrite H. cbn [bind].
  destruct (RoundTrip.loads_readable p (RoundTrip.dumps_readable v p Ev))
    as [[x ->]|(w & Hw & ->)].
  - now left.
  - right. now exists w.
Qed.

Lemma normalised_text_is_read_back_witness :
  is_valid_json (Some "{'a': [1, (2, 3), None], 2: 'x'}")
  = Return (true, EmptyString)
  \/ exists why, beyond_limits why
                 /\ is_valid_json (Some "{'a': [1, (2, 3), None], 2: 'x'}")
                    = Unmodelled why.
Proof.
  apply (normalised_text_is_read_back
           "{'a': [1, (2, 3), None], 2: 'x'}"
           ("{" ++ Json.quoted "a" ++ ": [1, [2, 3], null], "
                ++ Json.quoted "2" ++ ": " ++ Json.quoted "x" ++ "}")).
  vm_compute. reflexivity.
Defined.

(** X17.  A cell that is not empty is answered [False] only when
    [preprocess_json_string] raised the [ValueError] of its own clause: the
    message is then "Preprocessing error: Failed to process string: " and
    the text of the exception that [ast.literal_eval] or [json.dumps]
    raised.  No [False] comes from [json.loads]. *)
Theorem invalid_cells_failed_preprocessing (s msg : string) :
  s <> EmptyString ->
  is_valid_json (Some s) = Return (false, msg) ->
  exists e,
    preprocess_json_string s = Raise (wrapped e)
    /\ msg = "Preprocessing error: Failed to process string: " ++ exn_str e.
Proof.
  intros Hs H. destruct s as [|c s]; [now elim Hs|].
  unfold is_valid_json, is_valid_json_with in H.
  fold preprocess_json_string in H.
  destruct (preprocess_json_string (String c s)) as [p|e|w] eqn:Hp;
    cbn [bind] in H.
  - destruct (preprocess_returns_dumps _ p Hp) as [v Ev].
    destruct (RoundTrip.loads_readable p (RoundTrip.dumps_readable v p Ev))
      as [[x Hx]|(w & Hw & Hx)]; rewrite Hx in H; discriminate.
  - cbn [try_except dispatch h_classes h_body existsb] in H.
    destruct (isinstance e ValueError) eqn:Hv; cbn [orb] in H.
    + destruct (preprocess_raises_wrapped _ e Hp Hv) as [e0 ->].
      injection H as <-. now exists e0.
    + destruct (isinstance e JSONDecodeError) eqn:Hj; [|discriminate].
      exfalso. destruct e as [[] m]; discriminate.
  - discriminate.
Qed.

Lemma invalid_cells_failed_preprocessing_witness :
  exists e,
    preprocess_json_string "true" = Raise (wrapped e)
    /\ "Preprocessing error: Failed to process string: "
       ++ "malformed node or string: Name true"
       = "Preprocessing error: Failed to process string: " ++ exn_str e.
Proof.
  apply (invalid_cells_failed_preprocessing "true"
           ("Preprocessing error: Failed to process string: "
            ++ "malformed node or string: Name true")).
  - discriminate.
  - vm_compute. reflexivity.
Defined.
